(** * pagos-ml: the [/create_preference] endpoint

    A shallow embedding of the two server scripts of the repository,
    [src/index.js] and [src/unnamed/part_000].  Both register the same
    request handler; they differ in how [BASE_URL] is computed at start-up
    (only [part_000] removes a trailing slash).

    JavaScript values are modelled as a tree type, strings as sequences of
    UTF-16 code units, numbers as IEEE-754 binary64 values (the standard
    library's [spec_float]), exceptions as an explicit completion type, and
    the payment provider as a function from the request it receives to the
    completion it produces.

    The handler is given twice.  [handler] works on JSON data throughout:
    the request body is JSON data, and so is, in most of what is proved
    here, what the provider returns or throws.  [any_handler] lets the
    provider return or throw any value, BigInt included, and runs
    [JSON.stringify] where [res.json] does, so that it can throw there;
    on JSON data the two agree. *)

From Stdlib Require Import List Bool NArith ZArith Lia Ascii String.
From Stdlib Require Import DecimalPos DecimalN.
From Stdlib Require Import Floats.SpecFloat.
Import ListNotations.

Local Open Scope Z_scope.

(* ================================================================= *)
(** ** Strings *)

(** A JavaScript string is a sequence of UTF-16 code units. *)
Definition code_unit := N.
Definition jsstring := list code_unit.

Module Utf8.

(** Source literals are UTF-8; [decode] turns the bytes of a literal into
    code units (two units for a code point above [0xFFFF]). *)

Definition cont (b : N) : N := N.land b 63.

Definition units_of_code_point (cp : N) : jsstring :=
  if (cp <? 65536)%N then [cp]
  else let c := (cp - 65536)%N in
       [(55296 + N.shiftr c 10)%N; (56320 + N.land c 1023)%N].

Fixpoint decode_bytes (fuel : nat) (bs : list N) : jsstring :=
  match fuel with
  | O => []
  | S fuel =>
    match bs with
    | [] => []
    | b0 :: r0 =>
      if (b0 <? 128)%N then b0 :: decode_bytes fuel r0
      else if (b0 <? 224)%N then
        match r0 with
        | b1 :: r1 =>
          (N.shiftl (N.land b0 31) 6 + cont b1)%N :: decode_bytes fuel r1
        | _ => [65533%N]
        end
      else if (b0 <? 240)%N then
        match r0 with
        | b1 :: b2 :: r2 =>
          (N.shiftl (N.land b0 15) 12 + N.shiftl (cont b1) 6 + cont b2)%N
            :: decode_bytes fuel r2
        | _ => [65533%N]
        end
      else
        match r0 with
        | b1 :: b2 :: b3 :: r3 =>
          units_of_code_point
            (N.shiftl (N.land b0 7) 18 + N.shiftl (cont b1) 12
             + N.shiftl (cont b2) 6 + cont b3)%N
            ++ decode_bytes fuel r3
        | _ => [65533%N]
        end
    end
  end.

Definition bytes_of (s : string) : list N :=
  List.map N_of_ascii (list_ascii_of_string s).

Definition decode (s : string) : jsstring :=
  let bs := bytes_of s in decode_bytes (List.length bs) bs.

End Utf8.

(** [js "text"] is the JavaScript string written ["text"] in the source. *)
Definition js (s : string) : jsstring := Utf8.decode s.
Arguments js : simpl never.

Definition code_unit_eqb : code_unit -> code_unit -> bool := N.eqb.

Fixpoint jsstring_eqb (a b : jsstring) : bool :=
  match a, b with
  | [], [] => true
  | x :: a', y :: b' => code_unit_eqb x y && jsstring_eqb a' b'
  | _, _ => false
  end.

(** White space and line terminators, the characters [String.prototype.trim]
    removes and [parseFloat] skips (ECMA-262, WhiteSpace and LineTerminator). *)
Definition is_white_space (c : code_unit) : bool :=
  List.existsb (N.eqb c)
    [9; 10; 11; 12; 13; 32; 160; 5760; 8192; 8193; 8194; 8195; 8196; 8197;
     8198; 8199; 8200; 8201; 8202; 8232; 8233; 8239; 8287; 12288; 65279]%N.

Fixpoint trimStart (s : jsstring) : jsstring :=
  match s with
  | c :: r => if is_white_space c then trimStart r else s
  | [] => []
  end.

Definition trimEnd (s : jsstring) : jsstring := rev (trimStart (rev s)).

(** [s.trim()] *)
Definition trim (s : jsstring) : jsstring := trimEnd (trimStart s).

(** Does [needle] occur in [hay] as a contiguous substring? *)
Definition contains (hay needle : jsstring) : Prop :=
  exists pre post, hay = pre ++ needle ++ post.

Definition ends_with (s suffix : jsstring) : Prop :=
  exists pre, s = pre ++ suffix.

(* ================================================================= *)
(** ** Numbers *)

(** A JavaScript Number is a binary64 value: precision 53, exponents up to
    1024. *)
Definition number := spec_float.
Definition prec : Z := 53.
Definition emax : Z := 1024.

Definition NaN : number := S754_nan.
Definition Infinity : number := S754_infinity false.
Definition pos_zero : number := S754_zero false.


(** The Number value for the rational [p / q] (ECMA-262: the binary64 value
    nearest to it, ties to even), computed by the standard library's
    correctly rounded binary64 division of the integer [p] by the integer
    [q]. *)
Definition number_of_ratio (neg : bool) (p : N) (q : positive) : number :=
  match p with
  | N0 => S754_zero neg
  | Npos p =>
    SFdiv prec emax (S754_finite neg p 0) (S754_finite false q 0)
  end.



(** [ToBoolean] on a Number: [+0], [-0] and [NaN] are falsy. *)
Definition number_truthy (x : number) : bool :=
  match x with
  | S754_zero _ | S754_nan => false
  | _ => true
  end.

(** [x <= 0] on Numbers. *)
Definition number_le_zero (x : number) : bool := SFleb x pos_zero.

(** [x > 0] on Numbers, as the specification words the constraint. *)
Definition number_gt_zero (x : number) : bool := SFltb pos_zero x.

(* ================================================================= *)
(** ** Values and completions *)

(** The values the handler can meet: what [JSON.parse] produces, plus
    [undefined], which property reads produce.  An object is the list of its
    own enumerable properties in enumeration order. *)
#[warnings="-register-all"]
Inductive value : Type :=
| VUndefined
| VNull
| VBool (b : bool)
| VNumber (x : number)
| VString (s : jsstring)
| VArray (elems : list value)
| VObject (props : list (jsstring * value)).

(** The result of evaluating an expression: a value, or a thrown value. *)
Inductive completion (A : Type) : Type :=
| Normal (a : A)
| Throw (e : value).
Arguments Normal {A} a.
Arguments Throw {A} e.

Definition bind {A B} (c : completion A) (k : A -> completion B)
  : completion B :=
  match c with
  | Normal a => k a
  | Throw e => Throw e
  end.

Notation "'let*' x ':=' c 'in' k" := (bind c (fun x => k))
  (at level 10, x pattern, c at level 100, k at level 200).

(** [typeof v] *)
Inductive type_name : Type :=
| T_undefined | T_object | T_boolean | T_number | T_string.

Definition typeof (v : value) : type_name :=
  match v with
  | VUndefined => T_undefined
  | VNull | VArray _ | VObject _ => T_object
  | VBool _ => T_boolean
  | VNumber _ => T_number
  | VString _ => T_string
  end.

Definition type_name_eqb (a b : type_name) : bool :=
  match a, b with
  | T_undefined, T_undefined | T_object, T_object | T_boolean, T_boolean
  | T_number, T_number | T_string, T_string => true
  | _, _ => false
  end.

(** [ToBoolean v]: what [!v], [v || w], [v && w] and [if (v)] test. *)
Definition truthy (v : value) : bool :=
  match v with
  | VUndefined | VNull => false
  | VBool b => b
  | VNumber x => number_truthy x
  | VString s => negb (jsstring_eqb s [])
  | VArray _ | VObject _ => true
  end.

Definition nullish (v : value) : bool :=
  match v with
  | VUndefined | VNull => true
  | _ => false
  end.

Fixpoint lookup (k : jsstring) (props : list (jsstring * value)) : value :=
  match props with
  | [] => VUndefined
  | (k', v) :: rest => if jsstring_eqb k k' then v else lookup k rest
  end.

(** [obj[k] = v] on a property list: overwrite in place, or append. *)
Fixpoint set_prop (k : jsstring) (v : value) (props : list (jsstring * value))
  : list (jsstring * value) :=
  match props with
  | [] => [(k, v)]
  | (k', v') :: rest =>
    if jsstring_eqb k k' then (k, v) :: rest else (k', v') :: set_prop k v rest
  end.

(** The [TypeError] V8 throws; only its [message] is ever read. *)
Definition TypeError (message : jsstring) : value :=
  VObject [(js "message", VString message)].

Definition nullish_name (v : value) : jsstring :=
  match v with
  | VNull => js "null"
  | _ => js "undefined"
  end.

Definition cannot_read (base : value) (k : jsstring) : value :=
  TypeError (js "Cannot read properties of " ++ nullish_name base
             ++ js " (reading '" ++ k ++ js "')").

(** [base.k] for the property names the handler reads ([items], [title],
    [quantity], [unit_price], [init_point], [message], [status], [cause],
    [response], [data]): none of them is an array index or [length], and
    none is defined by the prototype of a parsed JSON value.  Reading a
    property of [null] or [undefined] throws. *)
Definition get_prop (base : value) (k : jsstring) : completion value :=
  match base with
  | VUndefined | VNull => Throw (cannot_read base k)
  | VObject props => Normal (lookup k props)
  | _ => Normal VUndefined
  end.

(** [const { k } = base], where the source text of [base] is [src]. *)
Definition destructure (base : value) (k src : jsstring) : completion value :=
  match base with
  | VUndefined | VNull =>
    Throw (TypeError (js "Cannot destructure property '" ++ k ++ js "' of '"
                      ++ src ++ js "' as it is " ++ nullish_name base
                      ++ js "."))
  | _ => get_prop base k
  end.

(* ================================================================= *)
(** ** Decimal digits *)

Definition digit_0 : code_unit := 48%N.
Definition full_stop : code_unit := 46%N.
Definition hyphen_minus : code_unit := 45%N.
Definition plus_sign : code_unit := 43%N.

Definition is_digit (c : code_unit) : bool :=
  ((48 <=? c) && (c <=? 57))%N.

Fixpoint digits_of_uint (u : Decimal.uint) : jsstring :=
  match u with
  | Decimal.Nil => []
  | Decimal.D0 r => 48%N :: digits_of_uint r
  | Decimal.D1 r => 49%N :: digits_of_uint r
  | Decimal.D2 r => 50%N :: digits_of_uint r
  | Decimal.D3 r => 51%N :: digits_of_uint r
  | Decimal.D4 r => 52%N :: digits_of_uint r
  | Decimal.D5 r => 53%N :: digits_of_uint r
  | Decimal.D6 r => 54%N :: digits_of_uint r
  | Decimal.D7 r => 55%N :: digits_of_uint r
  | Decimal.D8 r => 56%N :: digits_of_uint r
  | Decimal.D9 r => 57%N :: digits_of_uint r
  end.

Fixpoint uint_of_digits (s : jsstring) : Decimal.uint :=
  match s with
  | [] => Decimal.Nil
  | c :: r =>
    let u := uint_of_digits r in
    match (c - 48)%N with
    | 0%N => Decimal.D0 u
    | 1%N => Decimal.D1 u
    | 2%N => Decimal.D2 u
    | 3%N => Decimal.D3 u
    | 4%N => Decimal.D4 u
    | 5%N => Decimal.D5 u
    | 6%N => Decimal.D6 u
    | 7%N => Decimal.D7 u
    | 8%N => Decimal.D8 u
    | _ => Decimal.D9 u
    end
  end.

(** The decimal representation of [n], most significant digit first, with no
    leading zero ("0" for zero). *)
Definition decimal_digits (n : N) : jsstring := digits_of_uint (N.to_uint n).

(** The integer a string of decimal digits denotes. *)
Definition N_of_digits (s : jsstring) : N := N.of_uint (uint_of_digits s).

(** The longest prefix of decimal digits, and what follows it. *)
Fixpoint span_digits (s : jsstring) : jsstring * jsstring :=
  match s with
  | c :: r =>
    if is_digit c then let (ds, rest) := span_digits r in (c :: ds, rest)
    else ([], s)
  | [] => ([], [])
  end.

Fixpoint starts_with (pre s : jsstring) : bool :=
  match pre, s with
  | [], _ => true
  | p :: pre', c :: s' => code_unit_eqb p c && starts_with pre' s'
  | _ :: _, [] => false
  end.

(* ================================================================= *)
(** ** [parseFloat] *)

(** The Number value for [d * 10^ex]. *)
Definition number_of_decimal (neg : bool) (d : N) (ex : Z) : number :=
  match ex with
  | Zneg k => number_of_ratio neg d (10 ^ k)%positive
  | _ => number_of_ratio neg (d * 10 ^ Z.to_N ex)%N 1
  end.

(** An optional sign. *)
Definition read_sign (s : jsstring) : bool * jsstring :=
  match s with
  | c :: r =>
    if code_unit_eqb c hyphen_minus then (true, r)
    else if code_unit_eqb c plus_sign then (false, r)
    else (false, s)
  | [] => (false, s)
  end.

(** The value of an ExponentPart at the head of [s], zero when there is
    none. *)
Definition read_exponent (s : jsstring) : Z :=
  match s with
  | c :: r =>
    if code_unit_eqb c 101%N || code_unit_eqb c 69%N then
      let (neg, r') := read_sign r in
      match fst (span_digits r') with
      | [] => 0
      | ds => if neg then - Z.of_N (N_of_digits ds) else Z.of_N (N_of_digits ds)
      end
    else 0
  | [] => 0
  end.

(** [parseFloat(s)] (ECMA-262 19.2.4): skip leading white space, read the
    longest prefix that is a StrDecimalLiteral, and return the Number value
    for it; [NaN] when there is no such prefix. *)
Definition parseFloat (s : jsstring) : number :=
  let (neg, s0) := read_sign (trimStart s) in
  if starts_with (js "Infinity") s0 then S754_infinity neg
  else
    let (int_part, s1) := span_digits s0 in
    let (frac_part, s2) :=
      match s1 with
      | c :: r => if code_unit_eqb c full_stop then span_digits r else ([], s1)
      | [] => ([], s1)
      end in
    match int_part ++ frac_part with
    | [] => NaN
    | ds =>
      number_of_decimal neg (N_of_digits ds)
        (read_exponent s2 - Z.of_nat (List.length frac_part))
    end.

(* ================================================================= *)
(** ** Formatting numbers and values *)

(** The integer nearest to [m * 2^e * 10^f]; of two equally near, the larger
    (ECMA-262 21.1.3.3, step 10.a of [Number.prototype.toFixed]). *)
Definition nearest_scaled (m : positive) (e : Z) (f : nat) : N :=
  let num := (Npos m * 10 ^ N.of_nat f * 2 ^ Z.to_N e)%N in
  let den := (2 ^ Z.to_N (- e))%N in
  ((2 * num + den) / (2 * den))%N.

(** Is [m * 2^e >= 10^21]? *)
Definition at_least_1e21 (m : positive) (e : Z) : bool :=
  (10 ^ 21 * 2 ^ Z.to_N (- e) <=? Npos m * 2 ^ Z.to_N e)%N.

(** Steps 10.b-10.d of [toFixed]: the digits of [n] with a decimal point
    before the last [f] of them, padded with zeros on the left so that at
    least one digit precedes the point. *)
Definition fixed_notation (n : N) (f : nat) : jsstring :=
  let m := decimal_digits n in
  match f with
  | O => m
  | _ =>
    let k := List.length m in
    let m := if (k <=? f)%nat then repeat digit_0 (f + 1 - k) ++ m else m in
    let k := List.length m in
    firstn (k - f) m ++ full_stop :: skipn (k - f) m
  end.

Section Runtime.

(** [Number::toString] on a positive finite value [m * 2^e]: the shortest
    decimal that reads back as that value, in fixed or exponential notation.
    The runtime supplies it; which digits it picks matters to no property
    stated here. *)
Variable Number_toString_finite : positive -> Z -> jsstring.

(** [Number::toString(x, 10)] (ECMA-262 6.1.6.1.20). *)
Definition Number_toString (x : number) : jsstring :=
  match x with
  | S754_nan => js "NaN"
  | S754_zero _ => js "0"
  | S754_infinity neg => (if neg then js "-" else []) ++ js "Infinity"
  | S754_finite neg m e =>
    (if neg then js "-" else []) ++ Number_toString_finite m e
  end.

(** [x.toFixed(f)] for [0 <= f <= 100] (ECMA-262 21.1.3.3). *)
Definition Number_toFixed (x : number) (f : nat) : jsstring :=
  match x with
  | S754_nan | S754_infinity _ => Number_toString x
  | S754_zero _ => fixed_notation 0 f
  | S754_finite neg m e =>
    (if neg then js "-" else [])
    ++ (if at_least_1e21 m e then Number_toString (S754_finite false m e)
        else fixed_notation (nearest_scaled m e f) f)
  end.

(** [v.toFixed(f)] on an arbitrary value: only Numbers have the method. *)
Definition call_toFixed (v : value) (src : jsstring) (f : nat)
  : completion jsstring :=
  match v with
  | VNumber x => Normal (Number_toFixed x f)
  | VUndefined | VNull => Throw (cannot_read v (js "toFixed"))
  | _ => Throw (TypeError (src ++ js ".toFixed is not a function"))
  end.

(** *** [JSON.stringify] *)

Definition quotation_mark : code_unit := 34%N.
Definition reverse_solidus : code_unit := 92%N.

Definition hex_digit (d : N) : code_unit :=
  if (d <? 10)%N then (48 + d)%N else (87 + d)%N.

(** [UnicodeEscape]: a backslash, [u], and four lowercase hex digits. *)
Definition unicode_escape (c : code_unit) : jsstring :=
  [reverse_solidus; 117%N;
   hex_digit (N.shiftr c 12 mod 16); hex_digit (N.shiftr c 8 mod 16);
   hex_digit (N.shiftr c 4 mod 16); hex_digit (c mod 16)].

Definition is_high_surrogate (c : code_unit) : bool :=
  ((55296 <=? c) && (c <=? 56319))%N.
Definition is_low_surrogate (c : code_unit) : bool :=
  ((56320 <=? c) && (c <=? 57343))%N.

Definition escape_unit (c : code_unit) : jsstring :=
  if code_unit_eqb c 8%N then [reverse_solidus; 98%N]
  else if code_unit_eqb c 9%N then [reverse_solidus; 116%N]
  else if code_unit_eqb c 10%N then [reverse_solidus; 110%N]
  else if code_unit_eqb c 12%N then [reverse_solidus; 102%N]
  else if code_unit_eqb c 13%N then [reverse_solidus; 114%N]
  else if code_unit_eqb c quotation_mark then [reverse_solidus; quotation_mark]
  else if code_unit_eqb c reverse_solidus then [reverse_solidus; reverse_solidus]
  else if (c <? 32)%N || is_high_surrogate c || is_low_surrogate c
       then unicode_escape c
  else [c].

(** The body of [QuoteJSONString]: a surrogate pair is copied, a lone
    surrogate escaped. *)
Fixpoint quote_body (s : jsstring) : jsstring :=
  match s with
  | [] => []
  | c :: r =>
    match r with
    | d :: r' =>
      if is_high_surrogate c && is_low_surrogate d
      then c :: d :: quote_body r'
      else escape_unit c ++ quote_body r
    | [] => escape_unit c
    end
  end.

(** [QuoteJSONString(s)] *)
Definition quote_JSON_string (s : jsstring) : jsstring :=
  quotation_mark :: quote_body s ++ [quotation_mark].

Fixpoint join (sep : jsstring) (parts : list jsstring) : jsstring :=
  match parts with
  | [] => []
  | [p] => p
  | p :: rest => p ++ sep ++ join sep rest
  end.

(** [SerializeJSONProperty] without indentation: [None] stands for
    [undefined], the result for a value [JSON] cannot represent.  Such a
    value is printed as [null] inside an array and left out of an object;
    [NaN] and the infinities are printed as [null]. *)
Fixpoint serialize (v : value) : option jsstring :=
  match v with
  | VUndefined => None
  | VNull => Some (js "null")
  | VBool true => Some (js "true")
  | VBool false => Some (js "false")
  | VNumber x =>
    match x with
    | S754_nan | S754_infinity _ => Some (js "null")
    | _ => Some (Number_toString x)
    end
  | VString s => Some (quote_JSON_string s)
  | VArray elems =>
    let element v :=
      match serialize v with
      | Some t => t
      | None => js "null"
      end in
    Some (js "[" ++ join (js ",") (List.map element elems) ++ js "]")
  | VObject props =>
    let fix members (ps : list (jsstring * value)) : list jsstring :=
      match ps with
      | [] => []
      | (k, v) :: rest =>
        match serialize v with
        | Some t => (quote_JSON_string k ++ js ":" ++ t) :: members rest
        | None => members rest
        end
      end in
    Some (js "{" ++ join (js ",") (members props) ++ js "}")
  end.

(** [`${JSON.stringify(v)}`]: the serialization, or the text [undefined]. *)
Definition JSON_stringify_text (v : value) : jsstring :=
  match serialize v with
  | Some t => t
  | None => js "undefined"
  end.

(* ================================================================= *)
(** ** The [/create_preference] handler *)

(** What [res.status(s).json(b)] sends; [res.json(b)] alone sends status
    200. *)
Record response : Type := { status : Z; body : value }.

Definition json (s : Z) (b : value) : response := {| status := s; body := b |}.

Definition object1 (k : string) (v : value) : value := VObject [(js k, v)].

(** The three texts the handler sends. *)
Definition items_message : jsstring :=
  js "Items inválidos: se requiere un array de items no vacío.".

Definition item_message_prefix : jsstring :=
  js "Estructura de item inválida. Cada item debe tener 'title' (string no vacío), 'quantity' (number > 0) y 'unit_price' (number > 0). Item defectuoso: ".

Definition fallback_message : jsstring :=
  js "Error desconocido al procesar la solicitud.".

(** [BASE_URL] is fixed at start-up; the provider is what
    [preferencesService.create] does with the request it is given. *)
Variable BASE_URL : jsstring.
Variable provider : value -> completion value.

(** [typeof t !== 'string' || t.trim() === ''] *)
Definition not_string_or_blank (t : value) : bool :=
  match t with
  | VString s => jsstring_eqb (trim s) []
  | _ => true
  end.

(** [typeof q !== 'number' || q <= 0] *)
Definition not_number_or_le_zero (q : value) : bool :=
  match q with
  | VNumber x => number_le_zero x
  | _ => true
  end.

(** The condition of the [if] inside the loop (index.js 53-55, part_000
    45-47).  The first read of [item.title] throws when [item] is [null] or
    [undefined]; otherwise no read throws and repeated reads agree, so each
    property is read once here. *)
Definition invalid_item (item : value) : completion bool :=
  let* title := get_prop item (js "title") in
  let* quantity := get_prop item (js "quantity") in
  let* unit_price := get_prop item (js "unit_price") in
  Normal (negb (truthy title) || not_string_or_blank title
          || negb (truthy quantity) || not_number_or_le_zero quantity
          || negb (truthy unit_price) || not_number_or_le_zero unit_price).

Definition invalid_item_response (item : value) : response :=
  json 400
    (object1 "message"
       (VString (item_message_prefix ++ JSON_stringify_text item))).

(** The [for (const item of items)] loop: [Some r] when it returns the
    response [r], [None] when it runs to the end. *)
Fixpoint check_items (items : list value) : completion (option response) :=
  match items with
  | [] => Normal None
  | item :: rest =>
    let* bad := invalid_item item in
    if bad then Normal (Some (invalid_item_response item))
    else check_items rest
  end.

Inductive validation : Type :=
| Rejected (r : response)
| Accepted (items : list value).

Definition invalid_items_response : response :=
  json 400 (object1 "message" (VString items_message)).

(** index.js 45-58, part_000 38-50. *)
Definition validate (req_body : value) : completion validation :=
  let* items := destructure req_body (js "items") (js "req.body") in
  match items with
  | VArray elems =>
    (* [items] is truthy and [Array.isArray(items)] holds *)
    if (List.length elems =? 0)%nat then Normal (Rejected invalid_items_response)
    else
      let* returned := check_items elems in
      match returned with
      | Some r => Normal (Rejected r)
      | None => Normal (Accepted elems)
      end
  | _ => Normal (Rejected invalid_items_response)
  end.

(** The callback of [items.map] (index.js 62-67, part_000 54-58). *)
Definition preference_item (item : value) : completion value :=
  let* title := get_prop item (js "title") in
  let* quantity := get_prop item (js "quantity") in
  let* unit_price := get_prop item (js "unit_price") in
  let* text := call_toFixed unit_price (js "item.unit_price") 2 in
  Normal (VObject [(js "title", title);
                   (js "quantity", quantity);
                   (js "unit_price", VNumber (parseFloat text))]).

Fixpoint map_items (items : list value) : completion (list value) :=
  match items with
  | [] => Normal []
  | item :: rest =>
    let* first := preference_item item in
    let* others := map_items rest in
    Normal (first :: others)
  end.

Definition back_urls : value :=
  VObject [(js "success", VString (BASE_URL ++ js "/success"));
           (js "failure", VString (BASE_URL ++ js "/failure"));
           (js "pending", VString (BASE_URL ++ js "/pending"))].

(** [preferenceData] (index.js 61-77, part_000 53-68). *)
Definition preferenceData (items : list value) : completion value :=
  let* mapped := map_items items in
  Normal (VObject [(js "items", VArray mapped); (js "back_urls", back_urls)]).

(** The [try] block: its completion, and the requests handed to the
    provider on the way.  The two [console.log] calls have no effect on
    either and are left out. *)
Definition try_block (req_body : value) : completion response * list value :=
  match validate req_body with
  | Throw e => (Throw e, [])
  | Normal (Rejected r) => (Normal r, [])
  | Normal (Accepted items) =>
    match preferenceData items with
    | Throw e => (Throw e, [])
    | Normal data =>
      let request := object1 "body" data in
      (let* response := provider request in
       let* init_point := get_prop response (js "init_point") in
       Normal (json 200 (object1 "init_point" init_point)),
       [request])
    end
  end.

(** [a && b], with [b] evaluated only when [a] is truthy. *)
Definition and_then (a : value) (b : completion value) : completion value :=
  if truthy a then b else Normal a.

(** The [catch] block (index.js 90-120, part_000 78-95).  [errorMessage] and
    [errorDetails] are threaded through the assignments; a property the
    source reads several times ([error.response.data]) is read once, reads
    being repeatable. *)
Definition catch_block (error : value) : completion response :=
  let errorMessage := VString fallback_message in
  let errorDetails : list (jsstring * value) := [] in
  let* (errorMessage, errorDetails) :=
    if truthy error && type_name_eqb (typeof error) T_object then
      let* message := get_prop error (js "message") in
      let errorMessage := if truthy message then message else errorMessage in
      let* status := get_prop error (js "status") in
      let errorDetails :=
        if truthy status then set_prop (js "status") status errorDetails
        else errorDetails in
      let* cause := get_prop error (js "cause") in
      let errorDetails :=
        if truthy cause then set_prop (js "cause") cause errorDetails
        else errorDetails in
      let* response := get_prop error (js "response") in
      let* data := and_then response (get_prop response (js "data")) in
      if truthy data then
        let errorDetails := set_prop (js "apiResponse") data errorDetails in
        let* message := get_prop data (js "message") in
        let errorMessage := if truthy message then message else errorMessage in
        Normal (errorMessage, errorDetails)
      else Normal (errorMessage, errorDetails)
    else Normal (errorMessage, errorDetails) in
  Normal (json 500 (VObject [(js "message", errorMessage);
                             (js "details", VObject errorDetails)])).

(** What one request leads to: the response sent, if any, and the requests
    handed to the provider. *)
Record outcome : Type := {
  reply : completion response;
  provider_calls : list value
}.

(** [app.post("/create_preference", async (req, res) => { ... })] applied to
    a request whose parsed body is [req_body]. *)
Definition handler (req_body : value) : outcome :=
  let (tried, calls) := try_block req_body in
  {| reply := match tried with
              | Normal r => Normal r
              | Throw error => catch_block error
              end;
     provider_calls := calls |}.

End Runtime.

(* ================================================================= *)
(** ** Values beyond JSON data *)

(** The request body is JSON data, but what the provider returns or throws
    is any value, and [res.json] has to serialize what the handler copies
    from it.  [anyvalue] adds to the values of [value] the BigInt, a
    primitive [JSON.stringify] refuses to serialize. *)
#[warnings="-register-all"]
Inductive anyvalue : Type :=
| AUndefined
| ANull
| ABool (b : bool)
| ANumber (x : number)
| AString (s : jsstring)
| ABigInt (z : Z)
| AArray (elems : list anyvalue)
| AObject (props : list (jsstring * anyvalue)).

(** JSON data as a value among the others. *)
Fixpoint data (v : value) : anyvalue :=
  match v with
  | VUndefined => AUndefined
  | VNull => ANull
  | VBool b => ABool b
  | VNumber x => ANumber x
  | VString s => AString s
  | VArray elems => AArray (List.map data elems)
  | VObject props =>
    let fix each (ps : list (jsstring * value)) : list (jsstring * anyvalue) :=
      match ps with
      | [] => []
      | (k, v) :: rest => (k, data v) :: each rest
      end in
    AObject (each props)
  end.

(** The result of evaluating an expression: a value, or any thrown value. *)
Inductive result (A : Type) : Type :=
| Returned (a : A)
| Thrown (e : anyvalue).
Arguments Returned {A} a.
Arguments Thrown {A} e.

Definition result_bind {A B} (c : result A) (k : A -> result B) : result B :=
  match c with
  | Returned a => k a
  | Thrown e => Thrown e
  end.

Notation "'let+' x ':=' c 'in' k" := (result_bind c (fun x => k))
  (at level 10, x pattern, c at level 100, k at level 200).

(** [ToBoolean]: a BigInt is falsy when it is zero. *)
Definition any_truthy (v : anyvalue) : bool :=
  match v with
  | AUndefined | ANull => false
  | ABool b => b
  | ANumber x => number_truthy x
  | AString s => negb (jsstring_eqb s [])
  | ABigInt z => negb (z =? 0)
  | AArray _ | AObject _ => true
  end.

Definition any_nullish (v : anyvalue) : bool :=
  match v with
  | AUndefined | ANull => true
  | _ => false
  end.

(** [typeof v === 'object'] *)
Definition typeof_is_object (v : anyvalue) : bool :=
  match v with
  | ANull | AArray _ | AObject _ => true
  | _ => false
  end.

Fixpoint any_lookup (k : jsstring) (props : list (jsstring * anyvalue))
  : anyvalue :=
  match props with
  | [] => AUndefined
  | (k', v) :: rest => if jsstring_eqb k k' then v else any_lookup k rest
  end.

Fixpoint any_set_prop (k : jsstring) (v : anyvalue)
  (props : list (jsstring * anyvalue)) : list (jsstring * anyvalue) :=
  match props with
  | [] => [(k, v)]
  | (k', v') :: rest =>
    if jsstring_eqb k k' then (k, v) :: rest
    else (k', v') :: any_set_prop k v rest
  end.

(** [base.k], as [get_prop]; a BigInt has none of the properties read. *)
Definition any_get_prop (base : anyvalue) (k : jsstring) : result anyvalue :=
  match base with
  | AUndefined => Thrown (data (cannot_read VUndefined k))
  | ANull => Thrown (data (cannot_read VNull k))
  | AObject props => Returned (any_lookup k props)
  | _ => Returned AUndefined
  end.

(** The [TypeError] of [JSON.stringify] on a BigInt. *)
Definition cannot_serialize : anyvalue :=
  data (TypeError (js "Do not know how to serialize a BigInt")).

(** Does a BigInt occur in [v]? *)
Fixpoint has_bigint (v : anyvalue) : bool :=
  match v with
  | ABigInt _ => true
  | AArray elems => List.existsb has_bigint elems
  | AObject props =>
    let fix some (ps : list (jsstring * anyvalue)) : bool :=
      match ps with
      | [] => false
      | (_, v) :: rest => has_bigint v || some rest
      end in
    some props
  | _ => false
  end.

(** The body of a 500 response, in general. *)
Definition any_error_body (m : anyvalue) (d : list (jsstring * anyvalue))
  : anyvalue :=
  AObject [(js "message", m); (js "details", AObject d)].

(** What [res.status(s).json(object)] sends: the status, and the JSON text
    of the object. *)
Record answer : Type := {
  answer_status : Z;
  answer_object : anyvalue;
  answer_json : jsstring
}.

Section General.

Variable toString_finite : positive -> Z -> jsstring.
Variable BASE_URL : jsstring.

(** What [preferencesService.create] does with the request it is given,
    with no restriction on what it returns or throws. *)
Variable provider : value -> result anyvalue.

(** [SerializeJSONProperty] as [serialize], on any value: a BigInt makes it
    throw. *)
Fixpoint any_serialize (v : anyvalue) : result (option jsstring) :=
  match v with
  | AUndefined => Returned None
  | ANull => Returned (Some (js "null"))
  | ABool true => Returned (Some (js "true"))
  | ABool false => Returned (Some (js "false"))
  | ANumber x =>
    match x with
    | S754_nan | S754_infinity _ => Returned (Some (js "null"))
    | _ => Returned (Some (Number_toString toString_finite x))
    end
  | AString s => Returned (Some (quote_JSON_string s))
  | ABigInt _ => Thrown cannot_serialize
  | AArray elems =>
    let fix elements (l : list anyvalue) : result (list jsstring) :=
      match l with
      | [] => Returned []
      | v :: rest =>
        let+ t := any_serialize v in
        let+ ts := elements rest in
        Returned (match t with Some t => t | None => js "null" end :: ts)
      end in
    let+ ts := elements elems in
    Returned (Some (js "[" ++ join (js ",") ts ++ js "]"))
  | AObject props =>
    let fix members (ps : list (jsstring * anyvalue))
      : result (list jsstring) :=
      match ps with
      | [] => Returned []
      | (k, v) :: rest =>
        let+ t := any_serialize v in
        let+ ts := members rest in
        Returned (match t with
                  | Some t => (quote_JSON_string k ++ js ":" ++ t) :: ts
                  | None => ts
                  end)
      end in
    let+ ts := members props in
    Returned (Some (js "{" ++ join (js ",") ts ++ js "}"))
  end.

(** [res.status(s).json(object)]: [JSON.stringify] runs before anything is
    sent, so when it throws, [res.json] throws and nothing has been sent.
    The handler only ever hands it an object, for which the serialization
    is never [undefined]. *)
Definition res_json (s : Z) (object : anyvalue) : result answer :=
  let+ text := any_serialize object in
  Returned {| answer_status := s;
              answer_object := object;
              answer_json := match text with Some t => t | None => [] end |}.

(** The [try] block, as [try_block]: validation and the request are those
    of the JSON body; the provider's result is any value, and the calls of
    [res.json] serialize what they are given. *)
Definition any_try_block (req_body : value) : result answer * list value :=
  match validate toString_finite req_body with
  | Throw e => (Thrown (data e), [])
  | Normal (Rejected r) => (res_json (status r) (data (body r)), [])
  | Normal (Accepted items) =>
    match preferenceData toString_finite BASE_URL items with
    | Throw e => (Thrown (data e), [])
    | Normal data =>
      let request := object1 "body" data in
      (let+ response := provider request in
       let+ init_point := any_get_prop response (js "init_point") in
       res_json 200 (AObject [(js "init_point", init_point)]),
       [request])
    end
  end.

(** [a && b] *)
Definition any_and_then (a : anyvalue) (b : result anyvalue)
  : result anyvalue :=
  if any_truthy a then b else Returned a.

(** The object the [catch] block builds (index.js 92-113, part_000 80-90),
    as in [catch_block]. *)
Definition normalized_error (error : anyvalue) : result anyvalue :=
  let errorMessage := AString fallback_message in
  let errorDetails : list (jsstring * anyvalue) := [] in
  let+ (errorMessage, errorDetails) :=
    if any_truthy error && typeof_is_object error then
      let+ message := any_get_prop error (js "message") in
      let errorMessage := if any_truthy message then message else errorMessage in
      let+ status := any_get_prop error (js "status") in
      let errorDetails :=
        if any_truthy status then any_set_prop (js "status") status errorDetails
        else errorDetails in
      let+ cause := any_get_prop error (js "cause") in
      let errorDetails :=
        if any_truthy cause then any_set_prop (js "cause") cause errorDetails
        else errorDetails in
      let+ response := any_get_prop error (js "response") in
      let+ data := any_and_then response (any_get_prop response (js "data")) in
      if any_truthy data then
        let errorDetails :=
          any_set_prop (js "apiResponse") data errorDetails in
        let+ message := any_get_prop data (js "message") in
        let errorMessage :=
          if any_truthy message then message else errorMessage in
        Returned (errorMessage, errorDetails)
      else Returned (errorMessage, errorDetails)
    else Returned (errorMessage, errorDetails) in
  Returned (any_error_body errorMessage errorDetails).

(** The [catch] block: the object is built, then handed to
    [res.status(500).json] (index.js 116-119, part_000 91-94). *)
Definition any_catch_block (error : anyvalue) : result answer :=
  let+ object := normalized_error error in
  res_json 500 object.

(** What one request leads to.  [any_reply] is [Thrown] when the handler
    throws out of its [catch] block, without having sent an answer. *)
Record any_outcome : Type := {
  any_reply : result answer;
  any_calls : list value
}.

Definition any_handler (req_body : value) : any_outcome :=
  let (tried, calls) := any_try_block req_body in
  {| any_reply := match tried with
                  | Returned a => Returned a
                  | Thrown error => any_catch_block error
                  end;
     any_calls := calls |}.

End General.

(* ================================================================= *)
(** ** A concrete [Number::toString] *)

Module V8.

(** The shortest-digits search of ECMA-262 6.1.6.1.20, step 5: integers
    [n], [k], [s] with [10^(k-1) <= s < 10^k], [s * 10^(n-k)] reading back
    as the value, and [k] as small as possible. *)

Definition number_eqb (x y : number) : bool :=
  match x, y with
  | S754_zero a, S754_zero b | S754_infinity a, S754_infinity b => Bool.eqb a b
  | S754_nan, S754_nan => true
  | S754_finite a m e, S754_finite b m' e' =>
    Bool.eqb a b && Pos.eqb m m' && Z.eqb e e'
  | _, _ => false
  end.

(** Is [a / b < 10^n]? *)
Definition below_power (a b : N) (n : Z) : bool :=
  match n with
  | Zneg k => (a * 10 ^ Npos k <? b)%N
  | _ => (a <? b * 10 ^ Z.to_N n)%N
  end.

Fixpoint first_power (fuel : nat) (a b : N) (n : Z) : Z :=
  match fuel with
  | O => n
  | S fuel => if below_power a b n then n else first_power fuel a b (n + 1)
  end.

(** The least [n] with [a / b < 10^n], for [b] a power of two. *)
Definition decade (a b : N) : Z :=
  let t := Z.of_N (N.size a) - Z.of_N (N.size b) in
  first_power 4 a b (t * 30103 / 100000 - 1).

(** [floor (a / b / 10^p)] *)
Definition scaled_floor (a b : N) (p : Z) : N :=
  match p with
  | Zneg k => (a * 10 ^ Npos k / b)%N
  | _ => (a / (b * 10 ^ Z.to_N p))%N
  end.

(** [|s * 10^p - a / b|], scaled by a factor that does not depend on [s]. *)
Definition distance (a b : N) (p : Z) (s : N) : Z :=
  match p with
  | Zneg k => Z.abs (Z.of_N (s * b) - Z.of_N (a * 10 ^ Npos k))
  | _ => Z.abs (Z.of_N (s * 10 ^ Z.to_N p * b) - Z.of_N a)
  end.

Definition reads_back (x : number) (s : N) (p : Z) : bool :=
  number_eqb (number_of_decimal false s p) x.

Fixpoint search (fuel : nat) (x : number) (a b : N) (n0 : Z) (k : Z)
  : N * Z :=
  let p := n0 - k in
  let lo := scaled_floor a b p in
  let hi := (lo + 1)%N in
  match fuel with
  | O => (lo, p)
  | S fuel =>
    match reads_back x lo p, reads_back x hi p with
    | true, true =>
      match distance a b p lo ?= distance a b p hi with
      | Lt => (lo, p)
      | Gt => (hi, p)
      | Eq => if N.even lo then (lo, p) else (hi, p)
      end
    | true, false => (lo, p)
    | false, true => (hi, p)
    | false, false => search fuel x a b n0 (k + 1)
    end
  end.

Fixpoint strip_zeros (fuel : nat) (s : N) (p : Z) : N * Z :=
  match fuel with
  | O => (s, p)
  | S fuel =>
    if ((s mod 10 =? 0) && negb (s =? 0))%N
    then strip_zeros fuel (s / 10)%N (p + 1)
    else (s, p)
  end.

Definition exponent_part (ex : Z) : jsstring :=
  101%N :: (if ex <? 0 then hyphen_minus else plus_sign)
        :: decimal_digits (Z.to_N (Z.abs ex)).

(** Steps 6-10: lay the digits out in fixed or exponential notation. *)
Definition layout (ds : jsstring) (n : Z) : jsstring :=
  let k := Z.of_nat (List.length ds) in
  if (k <=? n) && (n <=? 21) then ds ++ repeat digit_0 (Z.to_nat (n - k))
  else if (0 <? n) && (n <=? 21) then
    firstn (Z.to_nat n) ds ++ full_stop :: skipn (Z.to_nat n) ds
  else if (-6 <? n) && (n <=? 0) then
    digit_0 :: full_stop :: repeat digit_0 (Z.to_nat (- n)) ++ ds
  else
    match ds with
    | [d] => d :: exponent_part (n - 1)
    | d :: rest => d :: full_stop :: rest ++ exponent_part (n - 1)
    | [] => []
    end.

Definition Number_toString_finite (m : positive) (e : Z) : jsstring :=
  let a := (Npos m * 2 ^ Z.to_N e)%N in
  let b := (2 ^ Z.to_N (- e))%N in
  let (s0, p0) := search 17 (S754_finite false m e) a b (decade a b) 1 in
  let (s, p) := strip_zeros 20 s0 p0 in
  let ds := decimal_digits s in
  layout ds (p + Z.of_nat (List.length ds)).

End V8.

(* ================================================================= *)
(** ** Start-up *)

(** [process.env] once [dotenv/config] has been loaded. *)
Definition environment := jsstring -> option jsstring.

(** [process.env.K || fallback]: an unset or empty variable yields the
    fallback. *)
Definition env_or (v : option jsstring) (fallback : jsstring) : jsstring :=
  match v with
  | Some (c :: s) => c :: s
  | _ => fallback
  end.

(** [s.replace(/\/$/, <empty string>)]: the pattern matches a solidus that
    is the last code unit of [s], and nothing else. *)
Definition solidus : code_unit := 47%N.

Fixpoint remove_trailing_slash (s : jsstring) : jsstring :=
  match s with
  | [] => []
  | c :: r =>
    match r with
    | [] => if code_unit_eqb c solidus then [] else [c]
    | _ => c :: remove_trailing_slash r
    end
  end.

(** What the top level of a script does, in order. *)
Inductive event : Type :=
| console_log (args : list jsstring)
| console_error (args : list jsstring)
| process_exit (code : Z)
| new_MercadoPagoConfig (accessToken locale : jsstring)
| app_post (path : jsstring)
| app_listen (port : Z).

Definition PORT : Z := 5000.

Definition configured_base_url (env : environment) : jsstring :=
  env_or (env (js "NEXT_PUBLIC_BASE_URL")) (js "http://localhost:3000").

(** The statements the two scripts share, given the value each computed for
    [BASE_URL].  [process.exit] ends the process: nothing follows it. *)
Definition script (BASE_URL : jsstring) (env : environment) : list event :=
  let MP_ACCESS_TOKEN := env (js "MP_ACCESS_TOKEN") in
  [ console_log [js "--- DEPURACIÓN DE SERVIDOR ---"];
    console_log [js "Valor de MP_ACCESS_TOKEN (parcial):";
                 match MP_ACCESS_TOKEN with
                 | Some (c :: s) => firstn 10 (c :: s) ++ js "..."
                 | _ => js "NO DEFINIDO"
                 end];
    console_log [js "Valor de BASE_URL cargado:"; BASE_URL];
    console_log [js "-------------------------------"] ]
  ++ match MP_ACCESS_TOKEN with
     | Some (c :: s) =>
       [ new_MercadoPagoConfig (c :: s) (js "es-MX");
         app_post (js "/create_preference");
         app_listen PORT ]
     | _ =>
       [ console_error [js "ERROR FATAL: MP_ACCESS_TOKEN no está definido en las variables de entorno. Por favor, configúralo en tu archivo .env"];
         process_exit 1 ]
     end.

(** [src/index.js] *)
Module Index.

Definition BASE_URL (env : environment) : jsstring :=
  configured_base_url env.

Definition startup (env : environment) : list event :=
  script (BASE_URL env) env.

Definition handler toString_finite (env : environment) provider req_body
  : outcome :=
  handler toString_finite (BASE_URL env) provider req_body.

End Index.

(** [src/unnamed/part_000] *)
Module Part000.

Definition BASE_URL (env : environment) : jsstring :=
  remove_trailing_slash (configured_base_url env).

Definition startup (env : environment) : list event :=
  script (BASE_URL env) env.

Definition handler toString_finite (env : environment) provider req_body
  : outcome :=
  handler toString_finite (BASE_URL env) provider req_body.

End Part000.

(* ================================================================= *)
(** ** The specification's vocabulary *)

(** A cart item as the specification describes it: [title] a text that is
    not empty once trimmed, [quantity] and [unit_price] numbers strictly
    greater than zero. *)
Definition valid_title (v : value) : bool :=
  match v with
  | VString s => negb (jsstring_eqb (trim s) [])
  | _ => false
  end.

Definition positive_number (v : value) : bool :=
  match v with
  | VNumber x => number_gt_zero x
  | _ => false
  end.

Definition valid_item (item : value) : bool :=
  match item with
  | VObject props =>
    valid_title (lookup (js "title") props)
    && positive_number (lookup (js "quantity") props)
    && positive_number (lookup (js "unit_price") props)
  | _ => false
  end.

(** A request body carrying a valid cart: a non-empty [items] array of
    valid items. *)
Definition valid_cart (req_body : value) (items : list value) : Prop :=
  get_prop req_body (js "items") = Normal (VArray items)
  /\ items <> []
  /\ Forall (fun item => valid_item item = true) items.

(** A finite price rounded to two decimal places: the Number value for
    [n / 100], with [n] the integer nearest to a hundred times the price. *)
Definition rounded_to_2_decimals (x : number) : number :=
  match x with
  | S754_finite neg m e => number_of_ratio neg (nearest_scaled m e 2) 100
  | _ => x
  end.

Definition price_of (item : value) : number :=
  match item with
  | VObject props =>
    match lookup (js "unit_price") props with
    | VNumber x => x
    | _ => NaN
    end
  | _ => NaN
  end.

Definition field (item : value) (k : string) : value :=
  match item with
  | VObject props => lookup (js k) props
  | _ => VUndefined
  end.

(** The provider-side item the specification asks for. *)
Definition expected_item (item : value) : value :=
  VObject [(js "title", field item "title");
           (js "quantity", field item "quantity");
           (js "unit_price", VNumber (rounded_to_2_decimals (price_of item)))].


(** What the handler does send for an item that passed validation, and the
    request it hands to the provider for a list of such items. *)
Definition sent_item (toString_finite : positive -> Z -> jsstring)
  (item : value) : value :=
  VObject [(js "title", field item "title");
           (js "quantity", field item "quantity");
           (js "unit_price",
            VNumber (parseFloat
                       (Number_toFixed toString_finite (price_of item) 2)))].

Definition sent_request (toString_finite : positive -> Z -> jsstring)
  (BASE_URL : jsstring) (items : list value) : value :=
  object1 "body"
    (VObject [(js "items", VArray (List.map (sent_item toString_finite) items));
              (js "back_urls", back_urls BASE_URL)]).

Definition responds (o : outcome) (s : Z) (b : value) : Prop :=
  reply o = Normal (json s b).


Definition provider_returns (provider : value -> completion value)
  (o : outcome) (r : value) : Prop :=
  forall request, In request (provider_calls o) -> provider request = Normal r.

(** [v.k] is [undefined]. *)
Definition lacks (v : value) (k : string) : Prop :=
  get_prop v (js k) = Normal VUndefined.

(** [v.response.data] cannot be reached or is [undefined]. *)
Definition lacks_response_data (v : value) : Prop :=
  exists r, get_prop v (js "response") = Normal r
            /\ (nullish r = true \/ lacks r "data").

Definition is_nonempty_string (v : value) : Prop :=
  exists s, v = VString s /\ s <> [].

(** The body of a 500 response. *)
Definition error_body (m : value) (d : list (jsstring * value)) : value :=
  VObject [(js "message", m); (js "details", VObject d)].

(** Where the message of the 500 response can come from. *)
Definition message_source (error m : value) : Prop :=
  m = VString fallback_message
  \/ get_prop error (js "message") = Normal m
  \/ exists r data,
       get_prop error (js "response") = Normal r
       /\ get_prop r (js "data") = Normal data
       /\ get_prop data (js "message") = Normal m.

(** Every truthy message the error carries is a string. *)
Definition string_messages (error : value) : Prop :=
  forall v, message_source error v -> truthy v = true ->
            exists s, v = VString s.

(** [null] and the primitive values are not objects. *)
Definition is_object (v : value) : bool :=
  match v with
  | VArray _ | VObject _ => true
  | _ => false
  end.

(** The [back_urls] of a request handed to the provider. *)
Definition request_back_urls (request : value) : value :=
  field (field request "body") "back_urls".

(* ================================================================= *)
(** ** Sample data *)

Module Sample.

(** The Number a decimal literal denotes. *)
Definition num (literal : string) : value := VNumber (parseFloat (js literal)).

Definition str (text : string) : value := VString (js text).

(** An environment with a token and a base URL that ends with a slash. *)
Definition env : environment :=
  fun k =>
    if jsstring_eqb k (js "MP_ACCESS_TOKEN") then Some (js "TEST-0000")
    else if jsstring_eqb k (js "NEXT_PUBLIC_BASE_URL")
         then Some (js "https://shop.example/")
    else None.

(** An environment without the token. *)
Definition env_without_token : environment :=
  fun k =>
    if jsstring_eqb k (js "NEXT_PUBLIC_BASE_URL")
    then Some (js "https://shop.example")
    else None.

Definition shirt : value :=
  VObject [(js "title", str "Shirt"); (js "quantity", num "2");
           (js "unit_price", num "19.999"); (js "sku", str "A-1")].

Definition yacht : value :=
  VObject [(js "title", str "Yacht"); (js "quantity", num "1");
           (js "unit_price", num "1e21")].

Definition cart : list value := [shirt; yacht].

Definition cart_body : value :=
  VObject [(js "items", VArray cart); (js "pedidoId", str "p-7")].

Definition untitled : value :=
  VObject [(js "title", VString []); (js "quantity", num "1");
           (js "unit_price", num "5")].

Definition unpriced : value :=
  VObject [(js "title", str "Cap"); (js "quantity", num "1");
           (js "unit_price", VNumber NaN)].

Definition checkout : value :=
  VObject [(js "id", str "123");
           (js "init_point", str "https://pay.example/abc")].

Definition provider_ok : value -> completion value :=
  fun _ => Normal checkout.

Definition invalid_token : value :=
  VObject [(js "status", num "400");
           (js "response",
            VObject [(js "data",
                      VObject [(js "message", str "invalid token")])])].


Definition base : jsstring := js "https://shop.example".

End Sample.



(** ** Vocabulary for any thrown or returned value *)

Definition any_responds (o : any_outcome) (s : Z) (object : anyvalue)
  (text : jsstring) : Prop :=
  any_reply o
  = Returned {| answer_status := s; answer_object := object;
                answer_json := text |}.


Definition any_message_source (error m : anyvalue) : Prop :=
  m = AString fallback_message
  \/ any_get_prop error (js "message") = Returned m
  \/ exists r d,
       any_get_prop error (js "response") = Returned r
       /\ any_get_prop r (js "data") = Returned d
       /\ any_get_prop d (js "message") = Returned m.


(** [null] and the primitive values, BigInt included, are not objects. *)
Definition any_is_object (v : anyvalue) : bool :=
  match v with
  | AArray _ | AObject _ => true
  | _ => false
  end.



(** [v.k] where reading it does not throw. *)
Definition any_field (v : anyvalue) (k : string) : anyvalue :=
  match v with
  | AObject props => any_lookup (js k) props
  | _ => AUndefined
  end.

(** The provider returns [r] on every request the handler hands to it. *)
Definition provider_returns_any (provider : value -> result anyvalue)
  (o : any_outcome) (r : anyvalue) : Prop :=
  forall request, In request (any_calls o) -> provider request = Returned r.

(** The JSON text of [{message: s, details: ...}], given the text [td] of
    the details. *)
Definition error_json (s td : jsstring) : jsstring :=
  js "{" ++ quote_JSON_string (js "message") ++ js ":" ++ quote_JSON_string s
  ++ js "," ++ quote_JSON_string (js "details") ++ js ":" ++ td ++ js "}".


(** JSON data among the values: the properties of an object, a completion,
    and a response together with the JSON text of its body. *)
Definition data_props (props : list (jsstring * value))
  : list (jsstring * anyvalue) :=
  List.map (fun p => (fst p, data (snd p))) props.




(* ================================================================= *)
(** ** Further sample data *)

Module Edge.

(** A token, and no base URL. *)
Definition env_token_only : environment :=
  fun k =>
    if jsstring_eqb k (js "MP_ACCESS_TOKEN") then Some (js "TEST-0000")
    else None.

(** The sample cart without the other fields of the body. *)
Definition plain_cart_body : value :=
  VObject [(js "items", VArray Sample.cart)].

(** A valid item, an item without a title, and [null]. *)
Definition second_item_untitled : value :=
  VObject [(js "items", VArray ([Sample.shirt] ++ Sample.untitled :: [VNull]))].

(** A tenth of a cent. *)
Definition speck : value :=
  VObject [(js "title", Sample.str "Speck"); (js "quantity", Sample.num "1");
           (js "unit_price", Sample.num "0.001")].

Definition trinket : value :=
  VObject [(js "title", Sample.str "Trinket");
           (js "quantity", Sample.num "3");
           (js "unit_price", Sample.num "1.005")].

(** What [JSON.parse] makes of the price [1e999]. *)
Definition priceless : value :=
  VObject [(js "title", Sample.str "Priceless");
           (js "quantity", Sample.num "1");
           (js "unit_price", Sample.num "1e999")].

(** An error with a message of its own, a zero status, a cause and a
    response body. *)
Definition layered_error : value :=
  VObject [(js "message", Sample.str "outer");
           (js "status", Sample.num "0");
           (js "cause", VArray [Sample.str "x"]);
           (js "response",
            VObject [(js "data",
                      VObject [(js "message", Sample.str "inner")])])].

(** An error whose cause is a BigInt. *)
Definition bigint_cause : anyvalue :=
  AObject [(js "message", AString (js "limit exceeded"));
           (js "cause", ABigInt 10)].

(** A provider that fails with [error] whatever it is handed. *)
Definition failing_provider (error : anyvalue) : value -> result anyvalue :=
  fun _ => Thrown error.

(** A provider that returns [r] whatever it is handed. *)
Definition returning_provider (r : anyvalue) : value -> result anyvalue :=
  fun _ => Returned r.

(** The items [null] and an item with a zero quantity. *)
Definition zero_quantity : value :=
  VObject [(js "title", Sample.str "a"); (js "quantity", Sample.num "0");
           (js "unit_price", Sample.num "5")].

Definition null_then_zero_quantity : value :=
  VObject [(js "items", VArray [VNull; zero_quantity])].

End Edge.

(* ================================================================= *)
(** * Properties *)

(** ** Strings and digits *)

Lemma jsstring_eqb_spec (a b : jsstring) : jsstring_eqb a b = true <-> a = b.
Proof.
  revert b; induction a as [|x a IH]; intros [|y b]; simpl; split;
    try congruence; try reflexivity.
  - intros H. apply andb_true_iff in H as [Hx Hr].
    apply N.eqb_eq in Hx. apply IH in Hr. congruence.
  - intros H. injection H as -> ->. apply andb_true_iff. split.
    + apply N.eqb_refl.
    + now apply IH.
Qed.

Lemma digits_of_uint_all_digits (u : Decimal.uint) :
  Forall (fun c => is_digit c = true) (digits_of_uint u).
Proof. induction u; simpl; constructor; auto. Qed.

Lemma uint_of_digits_of_uint (u : Decimal.uint) :
  uint_of_digits (digits_of_uint u) = u.
Proof. induction u; simpl; congruence. Qed.

(** Reading the digits of [n] gives [n] back. *)
Lemma N_of_decimal_digits (n : N) : N_of_digits (decimal_digits n) = n.
Proof.
  unfold N_of_digits, decimal_digits.
  rewrite uint_of_digits_of_uint. apply DecimalN.Unsigned.of_to.
Qed.

Lemma decimal_digits_nonempty (n : N) : decimal_digits n <> [].
Proof.
  unfold decimal_digits. destruct n as [|p]; simpl; [discriminate|].
  pose proof (DecimalPos.Unsigned.to_uint_nonnil p) as H.
  destruct (Pos.to_uint p); simpl; congruence.
Qed.

(** Leading zeros do not change the integer read. *)
Lemma N_of_digits_leading_zeros (j : nat) (ds : jsstring) :
  N_of_digits (repeat digit_0 j ++ ds) = N_of_digits ds.
Proof. induction j; simpl; auto. Qed.

Lemma span_digits_all (ds : jsstring) :
  Forall (fun c => is_digit c = true) ds -> span_digits ds = (ds, []).
Proof.
  induction 1 as [|c ds Hc _ IH]; simpl; [reflexivity|].
  now rewrite Hc, IH.
Qed.

Lemma span_digits_stop (ds : jsstring) (c : code_unit) (rest : jsstring) :
  Forall (fun c => is_digit c = true) ds -> is_digit c = false ->
  span_digits (ds ++ c :: rest) = (ds, c :: rest).
Proof.
  intros Hds Hc. induction Hds as [|d ds Hd _ IH]; simpl.
  - now rewrite Hc.
  - now rewrite Hd, IH.
Qed.

Lemma Forall_digits_app (a b : jsstring) :
  Forall (fun c => is_digit c = true) (a ++ b) ->
  Forall (fun c => is_digit c = true) a
  /\ Forall (fun c => is_digit c = true) b.
Proof. apply Forall_app. Qed.

Lemma repeat_digit_0_digits (j : nat) :
  Forall (fun c => is_digit c = true) (repeat digit_0 j).
Proof. induction j; simpl; constructor; auto. Qed.

(** A digit opens no white space, no sign and no [Infinity]. *)
Lemma digit_head (c : code_unit) (r : jsstring) :
  is_digit c = true ->
  trimStart (c :: r) = c :: r
  /\ read_sign (c :: r) = (false, c :: r)
  /\ starts_with (js "Infinity") (c :: r) = false.
Proof.
  unfold is_digit. intros H. apply andb_true_iff in H as [Hlo Hhi].
  apply N.leb_le in Hlo, Hhi.
  assert (Hc : In c [48; 49; 50; 51; 52; 53; 54; 55; 56; 57]%N).
  { simpl. lia. }
  simpl in Hc.
  repeat (destruct Hc as [<-|Hc]; [repeat split; reflexivity|]).
  contradiction.
Qed.

(** ** Rounding *)

(** [nearest_scaled m e f] is the integer [n] with
    [n <= m * 2^e * 10^f + 1/2 < n + 1]: the nearest one, the larger of two
    equally near. *)
Lemma nearest_scaled_nearest (m : positive) (e : Z) (f : nat) :
  let n := nearest_scaled m e f in
  let num := (Npos m * 10 ^ N.of_nat f * 2 ^ Z.to_N e)%N in
  let den := (2 ^ Z.to_N (- e))%N in
  (2 * den * n <= 2 * num + den < 2 * den * (n + 1))%N.
Proof.
  intros n num den. subst n. unfold nearest_scaled. fold num den.
  assert (Hden : (2 * den <> 0)%N).
  { subst den. pose proof (N.pow_nonzero 2 (Z.to_N (- e))). lia. }
  split.
  - apply N.Div0.mul_div_le.
  - rewrite N.add_1_r. now apply N.mul_succ_div_gt.
Qed.











(** ** [toFixed] followed by [parseFloat] *)

(** [parseFloat] on digits, a full stop, and digits. *)
Lemma parseFloat_fixed (a b : jsstring) :
  a <> [] ->
  Forall (fun c => is_digit c = true) a ->
  Forall (fun c => is_digit c = true) b ->
  parseFloat (a ++ full_stop :: b)
  = number_of_decimal false (N_of_digits (a ++ b))
      (- Z.of_nat (List.length b)).
Proof.
  intros Ha Da Db. destruct a as [|c a']; [congruence|].
  pose proof (Forall_inv Da) as Hc.
  destruct (digit_head c (a' ++ full_stop :: b) Hc) as (Ht & Hs & Hi).
  unfold parseFloat. cbn [app]. rewrite Ht, Hs, Hi.
  change (c :: a' ++ full_stop :: b) with ((c :: a') ++ full_stop :: b).
  rewrite (span_digits_stop (c :: a') full_stop b Da eq_refl).
  change (code_unit_eqb full_stop full_stop) with true. cbn iota.
  rewrite (span_digits_all b Db). cbn [app read_exponent].
  reflexivity.
Qed.

Lemma fixed_notation_split (n : N) (f : nat) :
  exists a b,
    fixed_notation n (S f) = a ++ full_stop :: b
    /\ a <> []
    /\ List.length b = S f
    /\ Forall (fun c => is_digit c = true) (a ++ b)
    /\ N_of_digits (a ++ b) = n.
Proof.
  unfold fixed_notation.
  set (m0 := decimal_digits n).
  set (m := if (List.length m0 <=? S f)%nat
            then repeat digit_0 (S f + 1 - List.length m0) ++ m0 else m0).
  assert (Hlen : (S f < List.length m)%nat).
  { subst m. destruct (Nat.leb_spec (List.length m0) (S f)).
    - rewrite length_app, repeat_length. lia.
    - lia. }
  assert (Hdig : Forall (fun c => is_digit c = true) m).
  { subst m. destruct (List.length m0 <=? S f)%nat.
    - apply Forall_app. split; [apply repeat_digit_0_digits|].
      apply digits_of_uint_all_digits.
    - apply digits_of_uint_all_digits. }
  assert (Hval : N_of_digits m = n).
  { subst m. destruct (List.length m0 <=? S f)%nat.
    - rewrite N_of_digits_leading_zeros. apply N_of_decimal_digits.
    - apply N_of_decimal_digits. }
  exists (firstn (List.length m - S f) m), (skipn (List.length m - S f) m).
  rewrite firstn_skipn. repeat split; auto.
  - intros E. apply (f_equal (@List.length _)) in E.
    rewrite length_firstn in E. simpl in E. lia.
  - rewrite length_skipn. lia.
Qed.

(** Reading back what [toFixed] laid out gives the Number value for
    [n / 10^f]. *)
Lemma parseFloat_fixed_notation (n : N) (f : nat) :
  parseFloat (fixed_notation n (S f))
  = number_of_decimal false n (- Z.of_nat (S f)).
Proof.
  destruct (fixed_notation_split n f) as (a & b & -> & Ha & Hb & Hd & Hn).
  apply Forall_app in Hd as [Da Db].
  rewrite (parseFloat_fixed a b Ha Da Db), Hn, Hb. reflexivity.
Qed.



(** [parseFloat] and [Number::toString] on well-known values:
    [0.1 = 0x1999999999999A * 2^-56], [1e23] is not a Number and reads as
    the one below it, [5e-324] is the least positive Number. *)
Example parseFloat_samples :
  parseFloat (js "0.1") = S754_finite false 7205759403792794 (-56)
  /\ parseFloat (js "1e23") = S754_finite false 5960464477539062 24
  /\ parseFloat (js "5e-324") = S754_finite false 1 (-1074)
  /\ parseFloat (js "1e999") = Infinity
  /\ parseFloat (js "  -.5e1x") = S754_finite true 5629499534213120 (-50)
  /\ parseFloat (js "abc") = NaN.
Proof. repeat (split; [vm_compute; reflexivity|]). vm_compute. reflexivity. Qed.

Example Number_toString_samples :
  List.map (fun t => Number_toString V8.Number_toString_finite
                       (parseFloat (js t)))
    ["19.999"; "0.1"; "1e21"; "1e23"; "123456789012345678901"; "0.00000015";
     "5e-324"; "400"]%string
  = List.map js
      ["19.999"; "0.1"; "1e+21"; "1e+23"; "123456789012345680000"; "1.5e-7";
       "5e-324"; "400"]%string.
Proof. vm_compute. reflexivity. Qed.

Example Number_toFixed_samples :
  List.map (fun t => Number_toFixed V8.Number_toString_finite
                       (parseFloat (js t)) 2)
    ["19.999"; "1.005"; "0.005"; "0.001"; "123.456"; "1e21"; "-2.5"]%string
  = List.map js
      ["20.00"; "1.00"; "0.01"; "0.00"; "123.46"; "1e+21"; "-2.50"]%string.
Proof. vm_compute. reflexivity. Qed.

(** ** Validation *)

Lemma title_check (t : value) :
  negb (truthy t) || not_string_or_blank t = negb (valid_title t).
Proof.
  destruct t as [| |b|x|s|l|ps]; try reflexivity.
  - now destruct b.
  - apply orb_true_r.
  - destruct s as [|c s]; [reflexivity|].
    cbn [truthy not_string_or_blank valid_title jsstring_eqb negb orb].
    now rewrite negb_involutive.
Qed.

Lemma number_check (q : value) :
  negb (truthy q) || not_number_or_le_zero q = negb (positive_number q).
Proof.
  destruct q as [| |b|x|s|l|ps]; try reflexivity.
  - now destruct b.
  - destruct x as [s|s| |s m e]; try destruct s; reflexivity.
  - apply orb_true_r.
Qed.

(** On anything but [null] and [undefined] the loop's condition is the
    negation of the specification's validity. *)
Lemma invalid_item_not_nullish (item : value) :
  nullish item = false ->
  invalid_item item = Normal (negb (valid_item item)).
Proof.
  destruct item as [| |b|x|s|l|ps]; try discriminate; intros _;
    try reflexivity.
  unfold invalid_item, valid_item, get_prop, bind.
  rewrite <- !orb_assoc.
  rewrite (orb_assoc (negb (truthy (lookup (js "title") ps)))), title_check.
  rewrite (orb_assoc (negb (truthy (lookup (js "quantity") ps)))), number_check.
  rewrite number_check. now rewrite !negb_andb, orb_assoc.
Qed.

Lemma invalid_item_nullish (item : value) :
  nullish item = true ->
  invalid_item item = Throw (cannot_read item (js "title")).
Proof. destruct item; try discriminate; reflexivity. Qed.

Lemma valid_item_not_nullish (item : value) :
  valid_item item = true -> nullish item = false.
Proof. destruct item; try discriminate; reflexivity. Qed.

Lemma truthy_not_nullish (v : value) : truthy v = true -> nullish v = false.
Proof. destruct v; try discriminate; reflexivity. Qed.

Lemma get_prop_not_nullish (v : value) (k : jsstring) :
  nullish v = false -> exists w, get_prop v k = Normal w.
Proof. destruct v; try discriminate; intros _; cbn; eauto. Qed.

Section Handler_lemmas.

Variable toString_finite : positive -> Z -> jsstring.
Variable BASE_URL : jsstring.
Variable provider : value -> completion value.

Lemma check_items_valid (items : list value) :
  Forall (fun item => valid_item item = true) items ->
  check_items toString_finite items = Normal None.
Proof.
  induction 1 as [|item items Hv _ IH]; [reflexivity|].
  cbn [check_items].
  rewrite (invalid_item_not_nullish item (valid_item_not_nullish item Hv)).
  now rewrite Hv.
Qed.

(** The loop stops at the first invalid item and answers with it. *)
Lemma check_items_first_invalid (pre post : list value) (bad : value) :
  Forall (fun item => valid_item item = true) pre ->
  nullish bad = false -> valid_item bad = false ->
  check_items toString_finite (pre ++ bad :: post)
  = Normal (Some (invalid_item_response toString_finite bad)).
Proof.
  intros Hpre Hn Hbad. induction Hpre as [|item pre Hv _ IH]; cbn [app check_items].
  - rewrite (invalid_item_not_nullish bad Hn), Hbad. reflexivity.
  - rewrite (invalid_item_not_nullish item (valid_item_not_nullish item Hv)).
    now rewrite Hv.
Qed.

(** Reaching [null] or [undefined], the loop throws. *)
Lemma check_items_nullish (pre post : list value) (bad : value) :
  Forall (fun item => valid_item item = true) pre ->
  nullish bad = true ->
  check_items toString_finite (pre ++ bad :: post)
  = Throw (cannot_read bad (js "title")).
Proof.
  intros Hpre Hn. induction Hpre as [|item pre Hv _ IH]; cbn [app check_items].
  - now rewrite (invalid_item_nullish bad Hn).
  - rewrite (invalid_item_not_nullish item (valid_item_not_nullish item Hv)).
    now rewrite Hv.
Qed.

(** With nothing [null] or [undefined] before it, an invalid item makes the
    loop answer 400, for it or for an earlier item. *)
Lemma check_items_rejects (pre post : list value) (bad : value) :
  Forall (fun item => nullish item = false) pre ->
  nullish bad = false -> valid_item bad = false ->
  exists item,
    check_items toString_finite (pre ++ bad :: post)
    = Normal (Some (invalid_item_response toString_finite item)).
Proof.
  intros Hpre Hn Hbad. induction Hpre as [|item pre Hi _ IH]; cbn [app check_items].
  - exists bad. rewrite (invalid_item_not_nullish bad Hn), Hbad. reflexivity.
  - rewrite (invalid_item_not_nullish item Hi).
    destruct (valid_item item); cbn [negb bind]; [exact IH|].
    now exists item.
Qed.

Lemma destructure_get (base : value) (k src : jsstring) (v : value) :
  get_prop base k = Normal v -> destructure base k src = Normal v.
Proof. destruct base; cbn; congruence. Qed.

Lemma destructure_not_nullish (base : value) (k src : jsstring) :
  nullish base = false -> destructure base k src = get_prop base k.
Proof. destruct base; try discriminate; reflexivity. Qed.

Lemma validate_valid_cart (req_body : value) (items : list value) :
  valid_cart req_body items ->
  validate toString_finite req_body = Normal (Accepted items).
Proof.
  intros (Hget & Hne & Hall). unfold validate.
  rewrite (destructure_get _ _ _ _ Hget). cbn [bind].
  destruct items as [|item items]; [congruence|]. cbn [List.length Nat.eqb].
  now rewrite (check_items_valid _ Hall).
Qed.

Lemma valid_item_price (item : value) :
  valid_item item = true ->
  exists props,
    item = VObject props
    /\ lookup (js "unit_price") props = VNumber (price_of item)
    /\ number_gt_zero (price_of item) = true.
Proof.
  destruct item as [| |b|x|s|l|ps]; try discriminate. intros H.
  exists ps. cbn [valid_item] in H.
  apply andb_true_iff in H as [_ H].
  cbn [price_of]. destruct (lookup (js "unit_price") ps); try discriminate.
  auto.
Qed.

Lemma preference_item_valid (item : value) :
  valid_item item = true ->
  preference_item toString_finite item = Normal (sent_item toString_finite item).
Proof.
  intros Hv. destruct (valid_item_price item Hv) as (ps & -> & Hp & _).
  unfold preference_item, sent_item, get_prop. cbn [bind].
  rewrite Hp. reflexivity.
Qed.

Lemma map_items_valid (items : list value) :
  Forall (fun item => valid_item item = true) items ->
  map_items toString_finite items
  = Normal (List.map (sent_item toString_finite) items).
Proof.
  induction 1 as [|item items Hv _ IH]; [reflexivity|].
  cbn [map_items List.map]. now rewrite (preference_item_valid item Hv), IH.
Qed.

(** For a valid cart the [try] block reaches the provider, once, with
    [sent_request]. *)
Lemma try_block_valid_cart (req_body : value) (items : list value) :
  valid_cart req_body items ->
  try_block toString_finite BASE_URL provider req_body
  = (let* response := provider (sent_request toString_finite BASE_URL items) in
     let* init_point := get_prop response (js "init_point") in
     Normal (json 200 (object1 "init_point" init_point)),
     [sent_request toString_finite BASE_URL items]).
Proof.
  intros Hc. unfold try_block. rewrite (validate_valid_cart _ _ Hc).
  destruct Hc as (_ & _ & Hall). unfold preferenceData.
  rewrite (map_items_valid _ Hall). reflexivity.
Qed.

Lemma provider_calls_valid_cart (req_body : value) (items : list value) :
  valid_cart req_body items ->
  provider_calls (handler toString_finite BASE_URL provider req_body)
  = [sent_request toString_finite BASE_URL items].
Proof.
  intros Hc. unfold handler. now rewrite (try_block_valid_cart _ _ Hc).
Qed.


End Handler_lemmas.

Lemma check_items_passes toString_finite (items : list value) :
  check_items toString_finite items = Normal None ->
  Forall (fun item => valid_item item = true) items.
Proof.
  induction items as [|item items IH]; [constructor|].
  cbn [check_items]. intros H.
  destruct (nullish item) eqn:Hn.
  - rewrite (invalid_item_nullish item Hn) in H. discriminate H.
  - rewrite (invalid_item_not_nullish item Hn) in H. cbn [bind] in H.
    destruct (valid_item item) eqn:Hv; [|discriminate H].
    constructor; auto.
Qed.

(** The carts the code accepts are exactly the valid carts of the
    specification. *)
Lemma validate_accepts_iff toString_finite (req_body : value)
      (items : list value) :
  validate toString_finite req_body = Normal (Accepted items)
  <-> valid_cart req_body items.
Proof.
  split; [|apply validate_valid_cart].
  unfold validate, valid_cart. intros H.
  destruct (nullish req_body) eqn:Hn.
  { destruct req_body; discriminate. }
  rewrite (destructure_not_nullish _ _ _ Hn) in H.
  destruct (get_prop_not_nullish req_body (js "items") Hn) as [v Hv].
  rewrite Hv in *. cbn [bind] in H.
  destruct v as [| |b|x|s|elems|ps]; try discriminate H.
  destruct elems as [|item rest]; [discriminate H|].
  cbn [List.length Nat.eqb] in H.
  destruct (check_items toString_finite (item :: rest)) as [[r|]|e] eqn:Hloop;
    try discriminate H.
  cbn [bind] in H. injection H as <-.
  split; [reflexivity|]. split; [discriminate|].
  now apply (check_items_passes toString_finite).
Qed.

(** ** The [catch] block *)

Lemma fallback_message_truthy : truthy (VString fallback_message) = true.
Proof. reflexivity. Qed.

(** Values that are not objects take none of the assignments. *)
Lemma catch_block_not_object (error : value) :
  truthy error && type_name_eqb (typeof error) T_object = false ->
  catch_block error
  = Normal (json 500 (error_body (VString fallback_message) [])).
Proof. intros H. unfold catch_block. rewrite H. reflexivity. Qed.

(** The [catch] block never throws, and always builds [{message, details}]
    with a truthy message. *)
Lemma catch_block_shape (error : value) :
  exists m d,
    catch_block error = Normal (json 500 (error_body m d))
    /\ truthy m = true
    /\ message_source error m.
Proof.
  destruct (truthy error && type_name_eqb (typeof error) T_object) eqn:Hobj.
  2:{ exists (VString fallback_message), [].
      rewrite (catch_block_not_object _ Hobj). unfold message_source. auto. }
  apply andb_true_iff in Hobj as [Ht Hty].
  pose proof (truthy_not_nullish _ Ht) as Hn.
  unfold catch_block. rewrite Ht, Hty. cbn [andb].
  destruct (get_prop_not_nullish error (js "message") Hn) as [msg Hmsg].
  destruct (get_prop_not_nullish error (js "status") Hn) as [st Hst].
  destruct (get_prop_not_nullish error (js "cause") Hn) as [ca Hca].
  destruct (get_prop_not_nullish error (js "response") Hn) as [r Hr].
  rewrite Hmsg, Hst, Hca, Hr. cbn [bind]. unfold and_then.
  set (m1 := if truthy msg then msg else VString fallback_message).
  assert (Hm1 : truthy m1 = true /\ message_source error m1).
  { subst m1. unfold message_source. destruct (truthy msg) eqn:E; auto. }
  destruct (truthy r) eqn:Etr.
  - destruct (get_prop_not_nullish r (js "data") (truthy_not_nullish _ Etr))
      as [data Hdata].
    rewrite Hdata. cbn [bind]. destruct (truthy data) eqn:Etd.
    + destruct (get_prop_not_nullish data (js "message")
                  (truthy_not_nullish _ Etd)) as [dm Hdm].
      rewrite Hdm. cbn [bind]. eexists _, _. split; [reflexivity|].
      destruct (truthy dm) eqn:Edm; [|exact Hm1].
      split; [exact Edm|]. unfold message_source. eauto 8.
    + cbn [bind]. eexists _, _. split; [reflexivity|exact Hm1].
  - cbn [bind]. rewrite Etr. cbn [bind]. eexists _, _.
    split; [reflexivity|exact Hm1].
Qed.

(** An object that carries none of the fields takes none of the
    assignments either. *)
Lemma catch_block_no_fields (error : value) :
  lacks error "message" -> lacks error "status" -> lacks error "cause" ->
  lacks_response_data error ->
  catch_block error
  = Normal (json 500 (error_body (VString fallback_message) [])).
Proof.
  unfold lacks. intros Hm Hs Hc (r & Hr & Hd).
  unfold catch_block.
  destruct (truthy error && type_name_eqb (typeof error) T_object);
    [|reflexivity].
  rewrite Hm, Hs, Hc, Hr. cbn [bind truthy]. unfold and_then.
  destruct (truthy r) eqn:Etr.
  - destruct Hd as [Hd|Hd].
    + now rewrite (truthy_not_nullish _ Etr) in Hd.
    + unfold lacks in Hd. rewrite Hd. reflexivity.
  - cbn [bind]. rewrite Etr. reflexivity.
Qed.

(** ** The base URL *)

Lemma remove_trailing_slash_slash (s : jsstring) :
  remove_trailing_slash (s ++ [solidus]) = s.
Proof.
  induction s as [|c s IH]; [reflexivity|].
  cbn [app remove_trailing_slash]. rewrite IH.
  destruct (s ++ [solidus]) eqn:E; [|reflexivity].
  now destruct s.
Qed.

Lemma remove_trailing_slash_other (s : jsstring) (c : code_unit) :
  c <> solidus -> remove_trailing_slash (s ++ [c]) = s ++ [c].
Proof.
  intros Hc. induction s as [|d s IH].
  - cbn. destruct (code_unit_eqb c solidus) eqn:E; [|reflexivity].
    apply N.eqb_eq in E. contradiction.
  - cbn [app remove_trailing_slash]. rewrite IH.
    destruct (s ++ [c]) eqn:E; [|reflexivity]. now destruct s.
Qed.

(** [part_000] sends the configured base URL without its trailing slash,
    followed by the three suffixes. *)
Lemma Part000_back_urls (env : environment) :
  back_urls (Part000.BASE_URL env)
  = VObject
      [(js "success",
        VString (remove_trailing_slash (configured_base_url env) ++ js "/success"));
       (js "failure",
        VString (remove_trailing_slash (configured_base_url env) ++ js "/failure"));
       (js "pending",
        VString (remove_trailing_slash (configured_base_url env) ++ js "/pending"))].
Proof. reflexivity. Qed.

Lemma remove_trailing_slash_single (s : jsstring) :
  ~ ends_with s [solidus; solidus] ->
  ~ ends_with (remove_trailing_slash s) [solidus].
Proof.
  intros Hno [pre Hpre]. induction s as [|x s0 _] using rev_ind.
  - now destruct pre.
  - destruct (N.eq_dec x solidus) as [->|Hx].
    + rewrite remove_trailing_slash_slash in Hpre. subst s0.
      apply Hno. exists pre. now rewrite <- app_assoc.
    + rewrite (remove_trailing_slash_other _ _ Hx) in Hpre.
      apply app_inj_tail in Hpre as [_ ->]. now apply Hx.
Qed.

(** Unless the configured URL ends with two slashes, what [part_000] sends
    has a single slash before the suffix. *)
Lemma Part000_single_slash (env : environment) :
  ~ ends_with (configured_base_url env) [solidus; solidus] ->
  ~ ends_with (Part000.BASE_URL env) [solidus].
Proof. apply remove_trailing_slash_single. Qed.

(** A configured URL that ends with two slashes keeps one of them. *)
Example Part000_two_trailing_slashes :
  remove_trailing_slash (js "https://shop.example//") ++ js "/success"
  = js "https://shop.example//success".
Proof. vm_compute. reflexivity. Qed.

(** [index.js] sends the configured base URL as it is. *)
Lemma Index_back_urls (env : environment) :
  back_urls (Index.BASE_URL env)
  = VObject
      [(js "success", VString (configured_base_url env ++ js "/success"));
       (js "failure", VString (configured_base_url env ++ js "/failure"));
       (js "pending", VString (configured_base_url env ++ js "/pending"))].
Proof. reflexivity. Qed.

(* ================================================================= *)
(** ** Any thrown or returned value *)

Section Anyvalue_induction.
Variable P : anyvalue -> Prop.
Hypothesis Hundefined : P AUndefined.
Hypothesis Hnull : P ANull.
Hypothesis Hbool : forall b, P (ABool b).
Hypothesis Hnumber : forall x, P (ANumber x).
Hypothesis Hstring : forall s, P (AString s).
Hypothesis Hbigint : forall z, P (ABigInt z).
Hypothesis Harray : forall elems, Forall P elems -> P (AArray elems).
Hypothesis Hobject :
  forall props, Forall (fun p => P (snd p)) props -> P (AObject props).

Lemma anyvalue_induction : forall v, P v.
Proof.
  fix IH 1. intros [| |b|x|s|z|elems|props].
  - exact Hundefined.
  - exact Hnull.
  - apply Hbool.
  - apply Hnumber.
  - apply Hstring.
  - apply Hbigint.
  - apply Harray. induction elems as [|v elems IHl]; constructor.
    + apply IH.
    + exact IHl.
  - apply Hobject. induction props as [|[k v] props IHl]; constructor.
    + apply IH.
    + exact IHl.
Qed.
End Anyvalue_induction.

Lemma any_truthy_not_nullish (v : anyvalue) :
  any_truthy v = true -> any_nullish v = false.
Proof. destruct v; try discriminate; reflexivity. Qed.

Lemma any_get_prop_not_nullish (v : anyvalue) (k : jsstring) :
  any_nullish v = false -> exists w, any_get_prop v k = Returned w.
Proof. destruct v; try discriminate; intros _; cbn; eauto. Qed.

(** *** The object the [catch] block builds *)

Lemma normalized_error_not_object (error : anyvalue) :
  any_truthy error && typeof_is_object error = false ->
  normalized_error error
  = Returned (any_error_body (AString fallback_message) []).
Proof. intros H. unfold normalized_error. rewrite H. reflexivity. Qed.

(** The object is always built, with a truthy message. *)
Lemma normalized_error_shape (error : anyvalue) :
  exists m d,
    normalized_error error = Returned (any_error_body m d)
    /\ any_truthy m = true
    /\ any_message_source error m.
Proof.
  destruct (any_truthy error && typeof_is_object error) eqn:Hobj.
  2:{ exists (AString fallback_message), [].
      rewrite (normalized_error_not_object _ Hobj).
      unfold any_message_source. auto. }
  apply andb_true_iff in Hobj as [Ht Hty].
  pose proof (any_truthy_not_nullish _ Ht) as Hn.
  unfold normalized_error. rewrite Ht, Hty. cbn [andb].
  destruct (any_get_prop_not_nullish error (js "message") Hn) as [msg Hmsg].
  destruct (any_get_prop_not_nullish error (js "status") Hn) as [st Hst].
  destruct (any_get_prop_not_nullish error (js "cause") Hn) as [ca Hca].
  destruct (any_get_prop_not_nullish error (js "response") Hn) as [r Hr].
  rewrite Hmsg, Hst, Hca, Hr. cbn [result_bind]. unfold any_and_then.
  set (m1 := if any_truthy msg then msg else AString fallback_message).
  assert (Hm1 : any_truthy m1 = true /\ any_message_source error m1).
  { subst m1. unfold any_message_source. destruct (any_truthy msg) eqn:E; auto. }
  destruct (any_truthy r) eqn:Etr.
  - destruct (any_get_prop_not_nullish r (js "data")
                (any_truthy_not_nullish _ Etr)) as [dt Hdt].
    rewrite Hdt. cbn [result_bind]. destruct (any_truthy dt) eqn:Etd.
    + destruct (any_get_prop_not_nullish dt (js "message")
                  (any_truthy_not_nullish _ Etd)) as [dm Hdm].
      rewrite Hdm. cbn [result_bind]. eexists _, _. split; [reflexivity|].
      destruct (any_truthy dm) eqn:Edm; [|exact Hm1].
      split; [exact Edm|]. unfold any_message_source. eauto 8.
    + cbn [result_bind]. eexists _, _. split; [reflexivity|exact Hm1].
  - cbn [result_bind]. rewrite Etr. cbn [result_bind]. eexists _, _.
    split; [reflexivity|exact Hm1].
Qed.


(** *** Serialization *)

Section Serialization.
Variable toString_finite : positive -> Z -> jsstring.

Lemma any_serialize_bigint (v : anyvalue) :
  if has_bigint v
  then any_serialize toString_finite v = Thrown cannot_serialize
  else exists t, any_serialize toString_finite v = Returned t
                 /\ (any_is_object v = true -> t <> None).
Proof.
  induction v as [| |b|x|s|z|elems IH|props IH] using anyvalue_induction;
    cbn [has_bigint any_serialize].
  - eexists. split; [reflexivity|discriminate].
  - eexists. split; [reflexivity|discriminate].
  - destruct b; eexists; (split; [reflexivity|discriminate]).
  - destruct x; eexists; (split; [reflexivity|discriminate]).
  - eexists. split; [reflexivity|discriminate].
  - reflexivity.
  - match goal with
    | |- context [result_bind (?f elems)] =>
      assert (H : if existsb has_bigint elems
                  then f elems = Thrown cannot_serialize
                  else exists ts, f elems = Returned ts)
    end.
    { induction IH as [|v elems Hv _ IHl]; cbn [existsb].
      - now eexists.
      - cbn [result_bind].
        destruct (has_bigint v).
        + rewrite Hv. reflexivity.
        + destruct Hv as (t & -> & _). cbn [orb result_bind].
          destruct (existsb has_bigint elems).
          * rewrite IHl. reflexivity.
          * destruct IHl as [ts ->]. now eexists. }
    destruct (existsb has_bigint elems).
    + rewrite H. reflexivity.
    + destruct H as [ts ->]. eexists. split; [reflexivity|discriminate].
  - match goal with
    | |- context [result_bind (?f props)] =>
      match goal with
      | |- context [if ?g props then _ else _] =>
        assert (H : if g props
                    then f props = Thrown cannot_serialize
                    else exists ts, f props = Returned ts)
      end
    end.
    { induction IH as [|[k v] props Hv _ IHl].
      - now eexists.
      - cbn [snd] in Hv. cbn [result_bind].
        destruct (has_bigint v).
        + rewrite Hv. reflexivity.
        + destruct Hv as (t & -> & _). cbn [orb result_bind].
          match goal with |- context [if ?c then _ else _] => destruct c end.
          * rewrite IHl. reflexivity.
          * destruct IHl as [ts ->]. now eexists. }
    match goal with |- context [if ?c then _ else _] => destruct c end.
    + rewrite H. reflexivity.
    + destruct H as [ts ->]. eexists. split; [reflexivity|discriminate].
Qed.

Lemma any_serialize_plain (v : anyvalue) :
  has_bigint v = false ->
  exists t, any_serialize toString_finite v = Returned t
            /\ (any_is_object v = true -> t <> None).
Proof.
  intros H. pose proof (any_serialize_bigint v) as Hs. now rewrite H in Hs.
Qed.

Lemma any_serialize_throws (v : anyvalue) :
  has_bigint v = true ->
  any_serialize toString_finite v = Thrown cannot_serialize.
Proof.
  intros H. pose proof (any_serialize_bigint v) as Hs. now rewrite H in Hs.
Qed.

(** [res.json] sends the object unless a BigInt occurs in it. *)
Lemma res_json_cases (s : Z) (props : list (jsstring * anyvalue)) :
  (has_bigint (AObject props) = false
   /\ exists text,
        any_serialize toString_finite (AObject props) = Returned (Some text)
        /\ res_json toString_finite s (AObject props)
           = Returned {| answer_status := s;
                         answer_object := AObject props;
                         answer_json := text |})
  \/ (has_bigint (AObject props) = true
      /\ res_json toString_finite s (AObject props) = Thrown cannot_serialize).
Proof.
  unfold res_json. destruct (has_bigint (AObject props)) eqn:Hb.
  - right. split; [reflexivity|].
    now rewrite (any_serialize_throws _ Hb).
  - left. split; [reflexivity|].
    destruct (any_serialize_plain _ Hb) as (t & Ht & Hsome).
    destruct t as [text|]; [|now destruct (Hsome eq_refl)].
    exists text. rewrite Ht. split; reflexivity.
Qed.

End Serialization.

(** *** The handler *)

Section General_lemmas.
Variable toString_finite : positive -> Z -> jsstring.
Variable BASE_URL : jsstring.
Variable provider : value -> result anyvalue.

Lemma any_try_block_valid_cart (req_body : value) (items : list value) :
  valid_cart req_body items ->
  any_try_block toString_finite BASE_URL provider req_body
  = (let+ response := provider (sent_request toString_finite BASE_URL items) in
     let+ init_point := any_get_prop response (js "init_point") in
     res_json toString_finite 200 (AObject [(js "init_point", init_point)]),
     [sent_request toString_finite BASE_URL items]).
Proof.
  intros Hc. unfold any_try_block. rewrite (validate_valid_cart _ _ _ Hc).
  destruct Hc as (_ & _ & Hall). unfold preferenceData.
  rewrite (map_items_valid _ _ Hall). reflexivity.
Qed.

Lemma any_calls_valid_cart (req_body : value) (items : list value) :
  valid_cart req_body items ->
  any_calls (any_handler toString_finite BASE_URL provider req_body)
  = [sent_request toString_finite BASE_URL items].
Proof.
  intros Hc. unfold any_handler. now rewrite (any_try_block_valid_cart _ _ Hc).
Qed.


(** A [TypeError] is answered with 500 and its message, or the generic
    one. *)
Lemma any_catch_TypeError (text : jsstring) :
  exists m json,
    any_catch_block toString_finite (data (TypeError text))
    = Returned {| answer_status := 500;
                  answer_object := any_error_body (AString m) [];
                  answer_json := json |}
    /\ m <> []
    /\ any_serialize toString_finite (any_error_body (AString m) [])
       = Returned (Some json).
Proof.
  destruct text as [|c text].
  - exists fallback_message. eexists. split; [reflexivity|].
    split; [vm_compute; discriminate|reflexivity].
  - exists (c :: text). eexists. split; [reflexivity|].
    split; [discriminate|reflexivity].
Qed.

Lemma get_prop_throws (base : value) (k : jsstring) (e : value) :
  get_prop base k = Throw e -> exists text, e = TypeError text.
Proof.
  destruct base; try discriminate; intros H; injection H as <-;
    eexists; reflexivity.
Qed.

Lemma invalid_item_throws (item : value) (e : value) :
  invalid_item item = Throw e -> exists text, e = TypeError text.
Proof.
  destruct (nullish item) eqn:Hn.
  - rewrite (invalid_item_nullish item Hn). intros H. injection H as <-.
    eexists. reflexivity.
  - rewrite (invalid_item_not_nullish item Hn). discriminate.
Qed.

Lemma check_items_throws (items : list value) (e : value) :
  check_items toString_finite items = Throw e ->
  exists text, e = TypeError text.
Proof.
  induction items as [|item items IH]; [discriminate|].
  cbn [check_items]. destruct (invalid_item item) as [bad|e'] eqn:Hi.
  - cbn [bind]. destruct bad; [discriminate|exact IH].
  - cbn [bind]. intros H. injection H as <-.
    now apply (invalid_item_throws item).
Qed.

(** Whatever validation throws is a [TypeError]. *)
Lemma validate_throws (req_body : value) (e : value) :
  validate toString_finite req_body = Throw e ->
  exists text, e = TypeError text.
Proof.
  unfold validate.
  destruct (destructure req_body (js "items") (js "req.body")) as [v|e']
    eqn:Hd; cbn [bind].
  - destruct v as [| |b|x|s|elems|ps]; try discriminate.
    destruct (List.length elems =? 0)%nat; [discriminate|].
    destruct (check_items toString_finite elems) as [[r|]|e'] eqn:Hloop;
      cbn [bind]; try discriminate.
    intros H. injection H as <-. now apply (check_items_throws elems).
  - intros H. injection H as <-.
    destruct req_body; cbn in Hd; try discriminate Hd;
      injection Hd as <-; eexists; reflexivity.
Qed.

End General_lemmas.

(** *** JSON data among the values *)

Section Value_induction.
Variable P : value -> Prop.
Hypothesis P_undefined : P VUndefined.
Hypothesis P_null : P VNull.
Hypothesis P_bool : forall b, P (VBool b).
Hypothesis P_number : forall x, P (VNumber x).
Hypothesis P_string : forall s, P (VString s).
Hypothesis P_array : forall elems, Forall P elems -> P (VArray elems).
Hypothesis P_object :
  forall props, Forall (fun p => P (snd p)) props -> P (VObject props).

Lemma value_induction : forall v, P v.
Proof.
  fix IH 1. intros v. destruct v as [| |b|x|s|elems|props].
  - exact P_undefined.
  - exact P_null.
  - exact (P_bool b).
  - exact (P_number x).
  - exact (P_string s).
  - apply P_array. induction elems as [|e elems IHe].
    + constructor.
    + constructor; [exact (IH e)|exact IHe].
  - apply P_object. induction props as [|[k e] props IHp].
    + constructor.
    + constructor; [exact (IH e)|exact IHp].
Qed.
End Value_induction.

Lemma data_object (props : list (jsstring * value)) :
  data (VObject props) = AObject (data_props props).
Proof.
  cbn [data]. f_equal. induction props as [|[k v] props IH]; [reflexivity|].
  cbn [data_props List.map fst snd]. f_equal. exact IH.
Qed.






Lemma data_has_no_bigint (v : value) : has_bigint (data v) = false.
Proof.
  induction v as [| |b|x|s|elems IH|props IH] using value_induction;
    try reflexivity.
  - cbn [data has_bigint]. induction IH as [|e elems He _ IHe]; [reflexivity|].
    cbn [List.map existsb]. now rewrite He, IHe.
  - rewrite data_object. cbn [has_bigint].
    induction IH as [|[k e] props He _ IHe]; [reflexivity|].
    simpl in *. now rewrite He, IHe.
Qed.

Section Agreement.
Variable toString_finite : positive -> Z -> jsstring.
Variable BASE_URL : jsstring.
Variable provider : value -> completion value.




End Agreement.

(* ================================================================= *)
(** * The claims *)

(** ** C1: redirect URLs *)

(** C1, which [index.js] does not meet: configured with
    [NEXT_PUBLIC_BASE_URL=https://shop.example/], [index.js] hands the
    provider redirect URLs with two slashes before the suffix, while
    [part_000] removes the trailing slash first and sends them with one. *)
Theorem index_js_keeps_trailing_slash :
  configured_base_url Sample.env = js "https://shop.example/"
  /\ List.map request_back_urls
       (provider_calls
          (Index.handler V8.Number_toString_finite Sample.env
             Sample.provider_ok Sample.cart_body))
     = [VObject
          [(js "success", VString (js "https://shop.example//success"));
           (js "failure", VString (js "https://shop.example//failure"));
           (js "pending", VString (js "https://shop.example//pending"))]]
  /\ List.map request_back_urls
       (provider_calls
          (Part000.handler V8.Number_toString_finite Sample.env
             Sample.provider_ok Sample.cart_body))
     = [VObject
          [(js "success", VString (js "https://shop.example/success"));
           (js "failure", VString (js "https://shop.example/failure"));
           (js "pending", VString (js "https://shop.example/pending"))]].
Proof.
  split; [vm_compute; reflexivity|].
  split; vm_compute; reflexivity.
Qed.

(** ** C2: the items handed to the provider *)



Lemma sample_cart_valid : valid_cart Sample.cart_body Sample.cart.
Proof.
  split; [vm_compute; reflexivity|]. split; [discriminate|].
  repeat (constructor; [vm_compute; reflexivity|]). constructor.
Defined.




(** The specification's second scenario: 19.999 is sent as 20. *)
Example shirt_sent_as_20 :
  expected_item Sample.shirt
  = VObject [(js "title", Sample.str "Shirt");
             (js "quantity", Sample.num "2");
             (js "unit_price", Sample.num "20.00")].
Proof. vm_compute. reflexivity. Qed.

(** ** C3: no items *)

Lemma validate_no_items toString_finite (req_body : value) :
  nullish req_body = false ->
  (forall item rest,
      get_prop req_body (js "items") <> Normal (VArray (item :: rest))) ->
  validate toString_finite req_body = Normal (Rejected invalid_items_response).
Proof.
  intros Hn Hno. unfold validate.
  rewrite (destructure_not_nullish _ _ _ Hn).
  destruct (get_prop_not_nullish req_body (js "items") Hn) as [v Hv].
  rewrite Hv in *. cbn [bind].
  destruct v as [| |b|x|s|elems|ps]; try reflexivity.
  destruct elems as [|item rest]; [reflexivity|].
  now destruct (Hno item rest).
Qed.

(** X16: when the request has a body, that is when [req.body] is neither
    [undefined] nor [null], and its [items] is absent, not an array, or an
    empty array, the answer is 400 with the message about the items, and the
    provider is not called. *)
Theorem missing_items_rejected toString_finite BASE_URL provider
    (req_body : value) :
  nullish req_body = false ->
  (forall item rest,
      get_prop req_body (js "items") <> Normal (VArray (item :: rest))) ->
  responds (handler toString_finite BASE_URL provider req_body) 400
    (object1 "message" (VString items_message))
  /\ provider_calls (handler toString_finite BASE_URL provider req_body) = [].
Proof.
  intros Hn Hno. unfold responds, handler, try_block.
  rewrite (validate_no_items _ _ Hn Hno). split; reflexivity.
Qed.

Lemma missing_items_rejected_witness :
  nullish (VObject [(js "items", VArray [])]) = false
  /\ (forall item rest,
         get_prop (VObject [(js "items", VArray [])]) (js "items")
         <> Normal (VArray (item :: rest)))
  /\ responds
       (handler V8.Number_toString_finite Sample.base Sample.provider_ok
          (VObject [(js "items", VArray [])]))
       400 (object1 "message" (VString items_message))
  /\ provider_calls
       (handler V8.Number_toString_finite Sample.base Sample.provider_ok
          (VObject [(js "items", VArray [])])) = [].
Proof.
  assert (H1 : nullish (VObject [(js "items", VArray [])]) = false)
    by reflexivity.
  assert (H2 : forall item rest,
             get_prop (VObject [(js "items", VArray [])]) (js "items")
             <> Normal (VArray (item :: rest))).
  { intros item rest. vm_compute. discriminate. }
  split; [exact H1|]. split; [exact H2|].
  exact (missing_items_rejected V8.Number_toString_finite Sample.base
           Sample.provider_ok (VObject [(js "items", VArray [])]) H1 H2).
Defined.

(** The specification's first scenario: the message mentions "no vacío". *)
Example items_message_mentions_no_vacio :
  contains items_message (js "no vacío").
Proof.
  exists (js "Items inválidos: se requiere un array de items "), (js ".").
  vm_compute. reflexivity.
Qed.

(** Without a body there is nothing to destructure: the handler answers
    500. *)
Lemma nullish_body_answers_500 toString_finite BASE_URL provider
    (req_body : value) :
  nullish req_body = true ->
  exists text,
    responds (handler toString_finite BASE_URL provider req_body) 500
      (error_body (VString text) []).
Proof.
  destruct req_body; try discriminate; intros _; eexists;
    vm_compute; reflexivity.
Qed.

(** C3, which the code does not meet: a request without a body carries no
    [items], yet it is not answered with 400.  [express.json()] leaves
    [req.body] undefined when there is nothing to parse, the destructuring
    [const { items } = req.body] throws, and the [catch] block answers 500
    with the text of the [TypeError]. *)
Theorem undefined_body_answers_500 toString_finite BASE_URL provider :
  (forall item rest,
      get_prop VUndefined (js "items") <> Normal (VArray (item :: rest)))
  /\ responds (handler toString_finite BASE_URL provider VUndefined) 500
       (error_body
          (VString
             (js "Cannot destructure property 'items' of 'req.body' as it is undefined."))
          [])
  /\ provider_calls (handler toString_finite BASE_URL provider VUndefined) = [].
Proof.
  split; [intros item rest; discriminate|].
  split; vm_compute; reflexivity.
Qed.

(** ** C4: invalid items *)

Section Rejection.

Variable toString_finite : positive -> Z -> jsstring.
Variable BASE_URL : jsstring.
Variable provider : value -> completion value.

Lemma check_items_nonempty (elems : list value) (r : response) :
  check_items toString_finite elems = Normal (Some r) -> elems <> [].
Proof. destruct elems; [discriminate|congruence]. Qed.

Lemma handler_returns_from_loop (req_body : value) (elems : list value)
      (r : response) :
  get_prop req_body (js "items") = Normal (VArray elems) ->
  check_items toString_finite elems = Normal (Some r) ->
  handler toString_finite BASE_URL provider req_body
  = {| reply := Normal r; provider_calls := [] |}.
Proof.
  intros Hget Hloop. unfold handler, try_block, validate.
  rewrite (destructure_get _ _ _ _ Hget). cbn [bind].
  pose proof (check_items_nonempty _ _ Hloop) as Hne.
  destruct elems as [|item rest]; [congruence|]. cbn [List.length Nat.eqb].
  now rewrite Hloop.
Qed.

Lemma handler_throws_in_loop (req_body : value) (elems : list value)
      (e : value) :
  get_prop req_body (js "items") = Normal (VArray elems) ->
  check_items toString_finite elems = Throw e ->
  handler toString_finite BASE_URL provider req_body
  = {| reply := catch_block e; provider_calls := [] |}.
Proof.
  intros Hget Hloop. unfold handler, try_block, validate.
  rewrite (destructure_get _ _ _ _ Hget). cbn [bind].
  destruct elems as [|item rest]; [discriminate|]. cbn [List.length Nat.eqb].
  now rewrite Hloop.
Qed.

(** X12: when the first invalid element of [items] is neither [null] nor
    [undefined], the answer is 400, the message ends with the JSON text of
    that element, and the provider is not called; what follows that element
    is not looked at. *)
Lemma first_invalid_item_rejected (req_body : value) (pre post : list value)
      (bad : value) :
  get_prop req_body (js "items") = Normal (VArray (pre ++ bad :: post)) ->
  Forall (fun item => valid_item item = true) pre ->
  nullish bad = false -> valid_item bad = false ->
  responds (handler toString_finite BASE_URL provider req_body) 400
    (object1 "message"
       (VString (item_message_prefix
                 ++ JSON_stringify_text toString_finite bad)))
  /\ provider_calls (handler toString_finite BASE_URL provider req_body) = [].
Proof.
  intros Hget Hpre Hn Hbad.
  rewrite (handler_returns_from_loop _ _ _ Hget
             (check_items_first_invalid _ pre post bad Hpre Hn Hbad)).
  split; reflexivity.
Qed.

(** The message of that answer contains the serialized item. *)
Lemma invalid_item_message_contains (bad : value) :
  contains (item_message_prefix ++ JSON_stringify_text toString_finite bad)
    (JSON_stringify_text toString_finite bad).
Proof. exists item_message_prefix, []. now rewrite app_nil_r. Qed.

(** When it is [null], the loop throws and the answer is 500. *)
Lemma first_invalid_item_null (req_body : value) (pre post : list value) :
  get_prop req_body (js "items") = Normal (VArray (pre ++ VNull :: post)) ->
  Forall (fun item => valid_item item = true) pre ->
  responds (handler toString_finite BASE_URL provider req_body) 500
    (error_body
       (VString (js "Cannot read properties of null (reading 'title')")) [])
  /\ provider_calls (handler toString_finite BASE_URL provider req_body) = [].
Proof.
  intros Hget Hpre.
  rewrite (handler_throws_in_loop _ _ _ Hget
             (check_items_nullish _ pre post VNull Hpre eq_refl)).
  split; vm_compute; reflexivity.
Qed.

End Rejection.

(** C4, which the code does not meet: [null] in [items] has no title, yet
    the request [{items: [null]}] is answered with 500 and the text of the
    [TypeError] raised by reading [item.title], not with 400 and the
    serialized item. *)
Theorem null_item_answers_500 toString_finite BASE_URL provider :
  valid_item VNull = false
  /\ responds
       (handler toString_finite BASE_URL provider
          (VObject [(js "items", VArray [VNull])]))
       500
       (error_body
          (VString (js "Cannot read properties of null (reading 'title')"))
          [])
  /\ provider_calls
       (handler toString_finite BASE_URL provider
          (VObject [(js "items", VArray [VNull])])) = [].
Proof.
  split; [reflexivity|].
  apply (first_invalid_item_null toString_finite BASE_URL provider
           (VObject [(js "items", VArray [VNull])]) [] []).
  - vm_compute. reflexivity.
  - constructor.
Qed.

(** The specification's third scenario: an empty title is answered with 400
    and the item's JSON text. *)
Example untitled_item_rejected :
  responds
    (handler V8.Number_toString_finite Sample.base Sample.provider_ok
       (VObject [(js "items", VArray [Sample.untitled])]))
    400
    (object1 "message"
       (VString
          (item_message_prefix
           ++ js "{" ++ [34%N] ++ js "title" ++ [34; 58; 34; 34; 44; 34]%N
           ++ js "quantity" ++ [34; 58]%N ++ js "1," ++ [34%N]
           ++ js "unit_price" ++ [34; 58]%N ++ js "5}"))).
Proof. vm_compute. reflexivity. Qed.

(** ** C5: success *)



(** ** C6: provider failure *)






(** A message that is not a finite number is written as [null]: for a
    thrown [{message: Infinity}] the body reads
    [{"message":null,"details":{}}]. *)
Example infinite_message_sent_as_null :
  exists text,
    any_reply
      (any_handler V8.Number_toString_finite Sample.base
         (Edge.failing_provider
            (AObject [(js "message", ANumber (S754_infinity false))]))
         Sample.cart_body)
    = Returned
        {| answer_status := 500;
           answer_object :=
             any_error_body (ANumber (S754_infinity false)) [];
           answer_json := text |}
    /\ text = js "{" ++ quote_JSON_string (js "message") ++ js ":null,"
              ++ quote_JSON_string (js "details") ++ js ":{}}".
Proof. eexists. split; vm_compute; reflexivity. Qed.

(** The sample error carries one message, a string. *)
Example invalid_token_string_messages : string_messages Sample.invalid_token.
Proof.
  intros v [->|[H|(r & data & Hr & Hd & Hm)]] Ht.
  - now exists fallback_message.
  - vm_compute in H. injection H as <-. discriminate Ht.
  - vm_compute in Hr. injection Hr as <-.
    vm_compute in Hd. injection Hd as <-.
    vm_compute in Hm. injection Hm as <-. eexists. reflexivity.
Qed.

(** ** C7: the provider's own message *)



(** In general: what is truthy among [status], [cause] and [response.data]
    is copied into [details], in that order, and a truthy
    [response.data.message] takes precedence over a truthy [message]. *)
Lemma get_prop_field (v : value) (k : string) :
  nullish v = false -> get_prop v (js k) = Normal (field v k).
Proof. destruct v; try discriminate; reflexivity. Qed.

(** X13: for a thrown object, [details] holds what is truthy among the
    error's [status], [cause] and [response.data], under the keys [status],
    [cause] and [apiResponse] and in that order, and nothing else; the
    message is [response.data.message] if truthy, else the error's [message]
    if truthy, else the generic text. *)
Lemma catch_block_object (error : value) :
  is_object error = true ->
  let response := field error "response" in
  let data := if truthy response then field response "data" else response in
  catch_block error
  = Normal
      (json 500
         (error_body
            (if truthy data && truthy (field data "message")
             then field data "message"
             else if truthy (field error "message")
                  then field error "message"
                  else VString fallback_message)
            ((if truthy (field error "status")
              then [(js "status", field error "status")] else [])
             ++ (if truthy (field error "cause")
                 then [(js "cause", field error "cause")] else [])
             ++ (if truthy data then [(js "apiResponse", data)] else [])))).
Proof.
  intros Hobj response data.
  assert (Ht : truthy error && type_name_eqb (typeof error) T_object = true)
    by (destruct error; try discriminate; reflexivity).
  assert (Hn : nullish error = false)
    by (destruct error; try discriminate; reflexivity).
  unfold catch_block. rewrite Ht.
  rewrite !(get_prop_field error _ Hn). cbn [bind]. fold response.
  unfold and_then. subst data.
  destruct (truthy response) eqn:Er.
  - rewrite (get_prop_field response _ (truthy_not_nullish _ Er)). cbn [bind].
    destruct (truthy (field response "data")) eqn:Ed.
    + rewrite (get_prop_field _ _ (truthy_not_nullish _ Ed)). cbn [bind andb].
      destruct (truthy (field error "status")),
               (truthy (field error "cause")),
               (truthy (field (field response "data") "message")),
               (truthy (field error "message")); reflexivity.
    + cbn [bind andb].
      destruct (truthy (field error "status")),
               (truthy (field error "cause")),
               (truthy (field error "message")); reflexivity.
  - cbn [bind]. rewrite Er. cbn [andb].
    destruct (truthy (field error "status")),
             (truthy (field error "cause")),
             (truthy (field error "message")); reflexivity.
Qed.

(** ** C8: start-up without a token *)

Lemma script_without_token (BASE_URL : jsstring) (env : environment) :
  env (js "MP_ACCESS_TOKEN") = None ->
  exists before,
    script BASE_URL env = before ++ [process_exit 1]
    /\ forall port, ~ In (app_listen port) before.
Proof.
  intros Htoken. unfold script. rewrite Htoken.
  eexists (_ :: _ :: _ :: _ :: [_]). split; [reflexivity|].
  intros port Hin. cbn [In] in Hin.
  repeat (destruct Hin as [Hin|Hin]; [discriminate Hin|]). exact Hin.
Qed.

(** C8: when [MP_ACCESS_TOKEN] is absent from the environment, both scripts
    end with [process.exit(1)], and [app.listen] has not been called before
    it: the server never listens. *)
Theorem startup_exits_without_token (env : environment) :
  env (js "MP_ACCESS_TOKEN") = None ->
  (exists before,
      Index.startup env = before ++ [process_exit 1]
      /\ forall port, ~ In (app_listen port) before)
  /\ (exists before,
         Part000.startup env = before ++ [process_exit 1]
         /\ forall port, ~ In (app_listen port) before).
Proof.
  intros Htoken. split; apply script_without_token; exact Htoken.
Qed.

Lemma startup_exits_without_token_witness :
  Sample.env_without_token (js "MP_ACCESS_TOKEN") = None
  /\ (exists before,
         Index.startup Sample.env_without_token = before ++ [process_exit 1]
         /\ forall port, ~ In (app_listen port) before)
  /\ (exists before,
         Part000.startup Sample.env_without_token
         = before ++ [process_exit 1]
         /\ forall port, ~ In (app_listen port) before).
Proof.
  assert (H : Sample.env_without_token (js "MP_ACCESS_TOKEN") = None)
    by (vm_compute; reflexivity).
  split; [exact H|].
  exact (startup_exits_without_token Sample.env_without_token H).
Defined.

(** With a token both scripts go on to listen on port 5000. *)
Lemma startup_listens_with_token (env : environment) (c : code_unit)
      (token : jsstring) :
  env (js "MP_ACCESS_TOKEN") = Some (c :: token) ->
  last (Index.startup env) (process_exit 0) = app_listen 5000
  /\ last (Part000.startup env) (process_exit 0) = app_listen 5000.
Proof.
  intros Htoken. unfold Index.startup, Part000.startup, script.
  rewrite Htoken. split; reflexivity.
Qed.

(** ** C9: [NaN] and zero *)

Lemma falsy_number_not_positive (x : number) :
  number_truthy x = false -> positive_number (VNumber x) = false.
Proof. destruct x as [s|s| |s m e]; try discriminate; reflexivity. Qed.

Lemma falsy_field_invalid (item : value) (x : number) :
  get_prop item (js "quantity") = Normal (VNumber x)
  \/ get_prop item (js "unit_price") = Normal (VNumber x) ->
  number_truthy x = false ->
  nullish item = false /\ valid_item item = false.
Proof.
  intros Hfield Hx. pose proof (falsy_number_not_positive x Hx) as Hp.
  destruct item as [| |b|y|s|l|ps];
    try (destruct Hfield as [H|H]; discriminate H).
  split; [reflexivity|]. cbn [valid_item get_prop] in *.
  destruct Hfield as [H|H]; injection H as H; rewrite H, Hp.
  - now rewrite andb_false_r.
  - now rewrite andb_false_r.
Qed.

(** X17: an item whose [quantity] or [unit_price] is [NaN] or zero is
    caught by the falsiness test: [NaN] has type number and [NaN <= 0] is
    false, but [!NaN] is true, as is [!0].  The loop's condition holds for
    such an item, and a request in which nothing [null] or [undefined]
    precedes it is answered with 400, the provider not being called. *)
Theorem falsy_numbers_rejected toString_finite BASE_URL provider
    (req_body : value) (pre post : list value) (item : value) (x : number) :
  get_prop req_body (js "items") = Normal (VArray (pre ++ item :: post)) ->
  Forall (fun earlier => nullish earlier = false) pre ->
  get_prop item (js "quantity") = Normal (VNumber x)
  \/ get_prop item (js "unit_price") = Normal (VNumber x) ->
  x = NaN \/ x = S754_zero false \/ x = S754_zero true ->
  (typeof (VNumber NaN) = T_number
   /\ number_le_zero NaN = false
   /\ negb (truthy (VNumber x)) = true)
  /\ invalid_item item = Normal true
  /\ (exists culprit,
         responds (handler toString_finite BASE_URL provider req_body) 400
           (object1 "message"
              (VString (item_message_prefix
                        ++ JSON_stringify_text toString_finite culprit))))
  /\ provider_calls (handler toString_finite BASE_URL provider req_body) = [].
Proof.
  intros Hget Hpre Hfield Hx.
  assert (Hfalsy : number_truthy x = false).
  { destruct Hx as [->|[->| ->]]; reflexivity. }
  destruct (falsy_field_invalid item x Hfield Hfalsy) as [Hn Hbad].
  split.
  { repeat split. cbn [truthy]. now rewrite Hfalsy. }
  split.
  { rewrite (invalid_item_not_nullish item Hn), Hbad. reflexivity. }
  destruct (check_items_rejects toString_finite pre post item Hpre Hn Hbad)
    as [culprit Hloop].
  rewrite (handler_returns_from_loop toString_finite BASE_URL provider
             _ _ _ Hget Hloop).
  split; [|reflexivity]. exists culprit. reflexivity.
Qed.

Lemma falsy_numbers_rejected_witness :
  get_prop (VObject [(js "items", VArray ([Sample.shirt] ++ Sample.unpriced :: []))])
    (js "items")
  = Normal (VArray ([Sample.shirt] ++ Sample.unpriced :: []))
  /\ Forall (fun earlier => nullish earlier = false) [Sample.shirt]
  /\ (get_prop Sample.unpriced (js "quantity") = Normal (VNumber NaN)
      \/ get_prop Sample.unpriced (js "unit_price") = Normal (VNumber NaN))
  /\ (NaN = NaN \/ NaN = S754_zero false \/ NaN = S754_zero true)
  /\ (typeof (VNumber NaN) = T_number
      /\ number_le_zero NaN = false
      /\ negb (truthy (VNumber NaN)) = true)
  /\ invalid_item Sample.unpriced = Normal true
  /\ (exists culprit,
         responds
           (handler V8.Number_toString_finite Sample.base Sample.provider_ok
              (VObject [(js "items",
                         VArray ([Sample.shirt] ++ Sample.unpriced :: []))]))
           400
           (object1 "message"
              (VString (item_message_prefix
                        ++ JSON_stringify_text V8.Number_toString_finite
                             culprit))))
  /\ provider_calls
       (handler V8.Number_toString_finite Sample.base Sample.provider_ok
          (VObject [(js "items",
                     VArray ([Sample.shirt] ++ Sample.unpriced :: []))]))
     = [].
Proof.
  assert (H1 : get_prop
                 (VObject [(js "items",
                            VArray ([Sample.shirt] ++ Sample.unpriced :: []))])
                 (js "items")
               = Normal (VArray ([Sample.shirt] ++ Sample.unpriced :: [])))
    by (vm_compute; reflexivity).
  assert (H2 : Forall (fun earlier => nullish earlier = false) [Sample.shirt])
    by (constructor; [reflexivity|constructor]).
  assert (H3 : get_prop Sample.unpriced (js "quantity") = Normal (VNumber NaN)
               \/ get_prop Sample.unpriced (js "unit_price")
                  = Normal (VNumber NaN))
    by (right; vm_compute; reflexivity).
  assert (H4 : NaN = NaN \/ NaN = S754_zero false \/ NaN = S754_zero true)
    by (left; reflexivity).
  split; [exact H1|]. split; [exact H2|]. split; [exact H3|].
  split; [exact H4|].
  exact (falsy_numbers_rejected V8.Number_toString_finite Sample.base
           Sample.provider_ok _ [Sample.shirt] [] Sample.unpriced NaN
           H1 H2 H3 H4).
Defined.

(** C9, which the code does not meet: the item
    [{title: 'a', quantity: 0, unit_price: 5}] has a zero quantity and the
    loop's test holds for it, yet the request whose [items] are [null] and
    that item is answered with 500 and the text of a [TypeError], not with
    400.  The loop reads [item.title] of [null] and throws before it reaches
    the item: the loop misses the case of an element that is [null]. *)
Theorem zero_quantity_after_null_answers_500 toString_finite BASE_URL
    provider :
  get_prop Edge.zero_quantity (js "quantity")
  = Normal (VNumber (S754_zero false))
  /\ invalid_item Edge.zero_quantity = Normal true
  /\ get_prop Edge.null_then_zero_quantity (js "items")
     = Normal (VArray [VNull; Edge.zero_quantity])
  /\ responds
       (handler toString_finite BASE_URL provider Edge.null_then_zero_quantity)
       500
       (error_body
          (VString (js "Cannot read properties of null (reading 'title')"))
          [])
  /\ provider_calls
       (handler toString_finite BASE_URL provider Edge.null_then_zero_quantity)
     = [].
Proof.
  split; [vm_compute; reflexivity|].
  split; [vm_compute; reflexivity|].
  split; [vm_compute; reflexivity|].
  split; vm_compute; reflexivity.
Qed.

(** ** C10: errors without structure *)




(** An object without any of the fields, here [{code: 7}], and [null]. *)
Example empty_object_gets_fallback :
  catch_block (VObject [(js "code", Sample.num "7")])
  = Normal (json 500 (error_body (VString fallback_message) []))
  /\ catch_block VNull
     = Normal (json 500 (error_body (VString fallback_message) [])).
Proof. split; vm_compute; reflexivity. Qed.

(* ================================================================= *)
(** * Further properties of the handler *)

(** ** When the provider is called *)

(** X1: the provider is called at most once per request, and exactly when
    the body carries a valid cart; it is then handed the cart's items
    reduced to three fields, and the redirect URLs. *)
Theorem provider_called_iff_valid_cart toString_finite BASE_URL provider
    (req_body : value) :
  (exists items,
      valid_cart req_body items
      /\ provider_calls (handler toString_finite BASE_URL provider req_body)
         = [sent_request toString_finite BASE_URL items])
  \/ ((forall items, ~ valid_cart req_body items)
      /\ provider_calls (handler toString_finite BASE_URL provider req_body)
         = []).
Proof.
  destruct (validate toString_finite req_body) as [[r|items]|e] eqn:Hv.
  - right. split.
    + intros items Hc.
      apply (validate_accepts_iff toString_finite) in Hc. congruence.
    + unfold handler, try_block. rewrite Hv. reflexivity.
  - left. exists items.
    apply (validate_accepts_iff toString_finite) in Hv. split; [exact Hv|].
    now apply provider_calls_valid_cart.
  - right. split.
    + intros items Hc.
      apply (validate_accepts_iff toString_finite) in Hc. congruence.
    + unfold handler, try_block. rewrite Hv. reflexivity.
Qed.

(** ** The answers *)

Lemma check_items_returns toString_finite (items : list value) (r : response) :
  check_items toString_finite items = Normal (Some r) ->
  exists item, In item items /\ r = invalid_item_response toString_finite item.
Proof.
  induction items as [|item items IH]; [discriminate|].
  cbn [check_items]. intros H.
  destruct (invalid_item item) as [bad|e]; [|discriminate H].
  cbn [bind] in H. destruct bad.
  - injection H as <-. exists item. split; [now left|reflexivity].
  - destruct (IH H) as (culprit & Hin & Hr). exists culprit.
    split; [now right|exact Hr].
Qed.

Lemma validate_rejects toString_finite (req_body : value) (r : response) :
  validate toString_finite req_body = Normal (Rejected r) ->
  status r = 400
  /\ exists s, body r = object1 "message" (VString s) /\ s <> [].
Proof.
  unfold validate. intros H.
  destruct (destructure req_body (js "items") (js "req.body")) as [v|e];
    [|discriminate H].
  cbn [bind] in H.
  assert (Hitems : status invalid_items_response = 400
                   /\ exists s, body invalid_items_response
                                = object1 "message" (VString s) /\ s <> []).
  { split; [reflexivity|]. exists items_message. split; [reflexivity|].
    vm_compute. discriminate. }
  destruct v as [| |b|x|s|elems|ps]; try (injection H as <-; exact Hitems).
  destruct (List.length elems =? 0)%nat; [injection H as <-; exact Hitems|].
  destruct (check_items toString_finite elems) as [[r'|]|e] eqn:Hloop;
    try discriminate H.
  cbn [bind] in H. injection H as <-.
  destruct (check_items_returns _ _ _ Hloop) as (item & _ & ->).
  split; [reflexivity|]. eexists. split; [reflexivity|].
  assert (Hp : item_message_prefix <> []) by (vm_compute; discriminate).
  intros E. apply app_eq_nil in E as [E _]. contradiction.
Qed.

(** X2: whatever the body and whatever the provider returns or throws, the
    handler either sends one answer or throws out of its [catch] block.  An
    answer is the JSON text of the object handed to [res.json], and it is
    200 with the [init_point] read from what the provider returned, after
    exactly one provider call; or 400 with a non-empty message, without any
    provider call; or 500 with a truthy message and an object of details.
    The handler throws, the [TypeError] of [JSON.stringify], only when the
    provider, called once, threw an error from which a BigInt was copied
    into the 500 body. *)
Theorem handler_answers_unless_unserializable toString_finite BASE_URL
    provider (req_body : value) :
  let o := any_handler toString_finite BASE_URL provider req_body in
  (exists a,
      any_reply o = Returned a
      /\ any_serialize toString_finite (answer_object a)
         = Returned (Some (answer_json a))
      /\ ((answer_status a = 200
           /\ exists request result v,
                any_calls o = [request]
                /\ provider request = Returned result
                /\ any_get_prop result (js "init_point") = Returned v
                /\ answer_object a = AObject [(js "init_point", v)])
          \/ (answer_status a = 400
              /\ any_calls o = []
              /\ exists s,
                   answer_object a = AObject [(js "message", AString s)]
                   /\ s <> [])
          \/ (answer_status a = 500
              /\ exists m d,
                   answer_object a = any_error_body m d
                   /\ any_truthy m = true)))
  \/ (any_reply o = Thrown cannot_serialize
      /\ exists request error m d,
           any_calls o = [request]
           /\ provider request = Thrown error
           /\ normalized_error error = Returned (any_error_body m d)
           /\ has_bigint (any_error_body m d) = true).
Proof.
  intros o. subst o.
  assert (Htype : forall text,
             exists a,
               any_catch_block toString_finite (data (TypeError text))
               = Returned a
               /\ any_serialize toString_finite (answer_object a)
                  = Returned (Some (answer_json a))
               /\ answer_status a = 500
               /\ exists m d, answer_object a = any_error_body m d
                              /\ any_truthy m = true).
  { intros text.
    destruct (any_catch_TypeError toString_finite text)
      as (m & json & Hr & Hm & Hser).
    eexists. split; [exact Hr|]. split; [exact Hser|].
    split; [reflexivity|]. exists (AString m), []. split; [reflexivity|].
    destruct m; [congruence|reflexivity]. }
  destruct (validate toString_finite req_body) as [[r|items]|e] eqn:Hv.
  - left. destruct (validate_rejects _ _ _ Hv) as (Hs & s & Hb & Hne).
    unfold any_handler, any_try_block. rewrite Hv, Hs, Hb.
    eexists. split; [reflexivity|]. split; [reflexivity|].
    right. left. split; [reflexivity|]. split; [reflexivity|].
    exists s. split; [reflexivity|exact Hne].
  - apply (validate_accepts_iff toString_finite) in Hv.
    unfold any_handler.
    rewrite (any_try_block_valid_cart _ BASE_URL provider _ _ Hv).
    cbn [any_reply any_calls].
    destruct (provider (sent_request toString_finite BASE_URL items))
      as [result|error] eqn:Hp; cbn [result_bind].
    + left. destruct (any_nullish result) eqn:Hn.
      * assert (Hthrow : exists text,
                   any_get_prop result (js "init_point")
                   = Thrown (data (TypeError text)))
          by (destruct result; try discriminate; eexists; reflexivity).
        destruct Hthrow as [text ->]. cbn [result_bind].
        destruct (Htype text) as (a & Hr & Hser & Hs & Hb).
        exists a. split; [exact Hr|]. split; [exact Hser|]. right. right. auto.
      * destruct (any_get_prop_not_nullish result (js "init_point") Hn)
          as [v Hget].
        rewrite Hget. cbn [result_bind].
        destruct (res_json_cases toString_finite 200 [(js "init_point", v)])
          as [(_ & json & Hser & Hres)|(_ & Hres)]; rewrite Hres.
        -- eexists. split; [reflexivity|]. split; [exact Hser|]. left.
           split; [reflexivity|].
           exists (sent_request toString_finite BASE_URL items), result, v.
           auto.
        -- destruct (Htype (js "Do not know how to serialize a BigInt"))
             as (a & Hr & Hser & Hs & Hb).
           exists a. split; [exact Hr|]. split; [exact Hser|].
           right. right. auto.
    + unfold any_catch_block.
      destruct (normalized_error_shape error) as (m & d & Hobj & Hm & _).
      rewrite Hobj. cbn [result_bind].
      destruct (res_json_cases toString_finite 500
                  [(js "message", m); (js "details", AObject d)])
        as [(_ & json & Hser & Hres)|(Hb & Hres)];
        fold (any_error_body m d) in *; rewrite Hres.
      * left. eexists. split; [reflexivity|]. split; [exact Hser|].
        right. right. split; [reflexivity|]. now exists m, d.
      * right. split; [reflexivity|].
        exists (sent_request toString_finite BASE_URL items), error, m, d.
        auto.
  - left. destruct (validate_throws _ _ _ Hv) as [text ->].
    unfold any_handler, any_try_block. rewrite Hv. cbn [any_reply].
    destruct (Htype text) as (a & Hr & Hser & Hs & Hb).
    exists a. split; [exact Hr|]. split; [exact Hser|]. right. right. auto.
Qed.


Lemma any_get_prop_field (v : anyvalue) (k : string) :
  any_nullish v = false -> any_get_prop v (js k) = Returned (any_field v k).
Proof. destruct v; try discriminate; reflexivity. Qed.

(** X19: for a thrown array or object, whatever its properties hold, the
    object built has as [details] what is truthy among the error's [status],
    [cause] and [response.data], under the keys [status], [cause] and
    [apiResponse] and in that order, and nothing else; its message is
    [response.data.message] if truthy, else the error's [message] if truthy,
    else the generic text. *)
Theorem thrown_object_normalized (error : anyvalue) :
  any_is_object error = true ->
  let response := any_field error "response" in
  let data :=
    if any_truthy response then any_field response "data" else response in
  normalized_error error
  = Returned
      (any_error_body
         (if any_truthy data && any_truthy (any_field data "message")
          then any_field data "message"
          else if any_truthy (any_field error "message")
               then any_field error "message"
               else AString fallback_message)
         ((if any_truthy (any_field error "status")
           then [(js "status", any_field error "status")] else [])
          ++ (if any_truthy (any_field error "cause")
              then [(js "cause", any_field error "cause")] else [])
          ++ (if any_truthy data then [(js "apiResponse", data)] else []))).
Proof.
  intros Hobj response data.
  assert (Ht : any_truthy error && typeof_is_object error = true)
    by (destruct error; try discriminate; reflexivity).
  assert (Hn : any_nullish error = false)
    by (destruct error; try discriminate; reflexivity).
  unfold normalized_error. rewrite Ht.
  rewrite !(any_get_prop_field error _ Hn). cbn [result_bind]. fold response.
  unfold any_and_then. subst data.
  destruct (any_truthy response) eqn:Er.
  - rewrite (any_get_prop_field response _ (any_truthy_not_nullish _ Er)).
    cbn [result_bind].
    destruct (any_truthy (any_field response "data")) eqn:Ed.
    + rewrite (any_get_prop_field _ _ (any_truthy_not_nullish _ Ed)).
      cbn [result_bind andb].
      destruct (any_truthy (any_field error "status")),
               (any_truthy (any_field error "cause")),
               (any_truthy (any_field (any_field response "data") "message")),
               (any_truthy (any_field error "message")); reflexivity.
    + cbn [result_bind andb].
      destruct (any_truthy (any_field error "status")),
               (any_truthy (any_field error "cause")),
               (any_truthy (any_field error "message")); reflexivity.
  - cbn [result_bind]. rewrite Er. cbn [andb].
    destruct (any_truthy (any_field error "status")),
             (any_truthy (any_field error "cause")),
             (any_truthy (any_field error "message")); reflexivity.
Qed.

Lemma thrown_object_normalized_witness :
  any_is_object Edge.bigint_cause = true
  /\ normalized_error Edge.bigint_cause
     = Returned
         (any_error_body (AString (js "limit exceeded"))
            [(js "cause", ABigInt 10)]).
Proof.
  split; [reflexivity|].
  exact (thrown_object_normalized Edge.bigint_cause eq_refl).
Defined.

(** X20: for a valid cart, when the provider returns a response whose
    [init_point] reads as [v], the answer is 200 with the JSON text of
    [{ init_point: v }] if no BigInt occurs in [v]; if one does,
    [res.json] throws inside the [try] block and the [catch] block answers
    500 with the message of that [TypeError] and empty details. *)
Theorem provider_result_serialized toString_finite BASE_URL provider
    (req_body : value) (items : list value) (provider_response v : anyvalue) :
  valid_cart req_body items ->
  provider_returns_any provider
    (any_handler toString_finite BASE_URL provider req_body)
    provider_response ->
  any_get_prop provider_response (js "init_point") = Returned v ->
  (has_bigint v = false ->
   exists json,
     any_responds (any_handler toString_finite BASE_URL provider req_body)
       200 (AObject [(js "init_point", v)]) json
     /\ any_serialize toString_finite (AObject [(js "init_point", v)])
        = Returned (Some json))
  /\ (has_bigint v = true ->
      any_responds (any_handler toString_finite BASE_URL provider req_body)
        500
        (any_error_body
           (AString (js "Do not know how to serialize a BigInt")) [])
        (error_json (js "Do not know how to serialize a BigInt") (js "{}"))).
Proof.
  intros Hc Hret Hv. unfold provider_returns_any in Hret.
  rewrite (any_calls_valid_cart _ _ _ _ _ Hc) in Hret.
  specialize (Hret _ (or_introl eq_refl)).
  unfold any_responds, any_handler.
  rewrite (any_try_block_valid_cart _ _ _ _ _ Hc). cbn [any_reply].
  rewrite Hret. cbn [result_bind]. rewrite Hv. cbn [result_bind].
  destruct (res_json_cases toString_finite 200 [(js "init_point", v)])
    as [(Hb & json & Hser & Hres)|(Hb & Hres)]; rewrite Hres;
    cbn [has_bigint] in Hb; rewrite orb_false_r in Hb; rewrite Hb.
  - split; [|discriminate]. intros _. exists json. split; [reflexivity|exact Hser].
  - split; [discriminate|]. intros _. vm_compute. reflexivity.
Qed.

Lemma provider_result_serialized_witness :
  valid_cart Sample.cart_body Sample.cart
  /\ provider_returns_any
       (Edge.returning_provider (AObject [(js "init_point", ABigInt 7)]))
       (any_handler V8.Number_toString_finite Sample.base
          (Edge.returning_provider (AObject [(js "init_point", ABigInt 7)]))
          Sample.cart_body)
       (AObject [(js "init_point", ABigInt 7)])
  /\ any_get_prop (AObject [(js "init_point", ABigInt 7)]) (js "init_point")
     = Returned (ABigInt 7)
  /\ has_bigint (ABigInt 7) = true
  /\ any_responds
       (any_handler V8.Number_toString_finite Sample.base
          (Edge.returning_provider (AObject [(js "init_point", ABigInt 7)]))
          Sample.cart_body)
       500
       (any_error_body
          (AString (js "Do not know how to serialize a BigInt")) [])
       (error_json (js "Do not know how to serialize a BigInt") (js "{}")).
Proof.
  assert (H2 : provider_returns_any
                 (Edge.returning_provider (AObject [(js "init_point", ABigInt 7)]))
                 (any_handler V8.Number_toString_finite Sample.base
                    (Edge.returning_provider
                       (AObject [(js "init_point", ABigInt 7)]))
                    Sample.cart_body)
                 (AObject [(js "init_point", ABigInt 7)])).
  { intros request _. reflexivity. }
  assert (H3 : any_get_prop (AObject [(js "init_point", ABigInt 7)])
                 (js "init_point")
               = Returned (ABigInt 7)) by (vm_compute; reflexivity).
  split; [exact sample_cart_valid|]. split; [exact H2|]. split; [exact H3|].
  split; [reflexivity|].
  exact (proj2
           (provider_result_serialized V8.Number_toString_finite Sample.base
              (Edge.returning_provider (AObject [(js "init_point", ABigInt 7)]))
              Sample.cart_body Sample.cart
              (AObject [(js "init_point", ABigInt 7)]) (ABigInt 7)
              sample_cart_valid H2 H3)
           eq_refl).
Defined.

(** X3: only the [items] of the body matter.  Two bodies with the same
    [items] get the same answer and lead to the same provider call, whatever
    else they carry ([pedidoId] and [datosEnvio], which [part_000]
    destructures, included). *)
Theorem other_body_fields_ignored toString_finite BASE_URL provider
    (body1 body2 : value) :
  nullish body1 = false -> nullish body2 = false ->
  get_prop body1 (js "items") = get_prop body2 (js "items") ->
  handler toString_finite BASE_URL provider body1
  = handler toString_finite BASE_URL provider body2.
Proof.
  intros H1 H2 Hitems. unfold handler, try_block, validate.
  rewrite (destructure_not_nullish _ _ _ H1).
  rewrite (destructure_not_nullish _ _ _ H2).
  now rewrite Hitems.
Qed.

Lemma other_body_fields_ignored_witness :
  nullish Sample.cart_body = false
  /\ nullish Edge.plain_cart_body = false
  /\ get_prop Sample.cart_body (js "items")
     = get_prop Edge.plain_cart_body (js "items")
  /\ handler V8.Number_toString_finite Sample.base Sample.provider_ok
       Sample.cart_body
     = handler V8.Number_toString_finite Sample.base Sample.provider_ok
         Edge.plain_cart_body.
Proof.
  assert (H3 : get_prop Sample.cart_body (js "items")
               = get_prop Edge.plain_cart_body (js "items"))
    by (vm_compute; reflexivity).
  split; [reflexivity|]. split; [reflexivity|]. split; [exact H3|].
  exact (other_body_fields_ignored V8.Number_toString_finite Sample.base
           Sample.provider_ok Sample.cart_body Edge.plain_cart_body
           eq_refl eq_refl H3).
Defined.

(** A witness for [first_invalid_item_rejected]: the second item has no
    title, and the [null] after it is never looked at. *)
Lemma first_invalid_item_rejected_witness :
  get_prop Edge.second_item_untitled (js "items")
  = Normal (VArray ([Sample.shirt] ++ Sample.untitled :: [VNull]))
  /\ Forall (fun item => valid_item item = true) [Sample.shirt]
  /\ nullish Sample.untitled = false
  /\ valid_item Sample.untitled = false
  /\ responds
       (handler V8.Number_toString_finite Sample.base Sample.provider_ok
          Edge.second_item_untitled)
       400
       (object1 "message"
          (VString (item_message_prefix
                    ++ JSON_stringify_text V8.Number_toString_finite
                         Sample.untitled)))
  /\ provider_calls
       (handler V8.Number_toString_finite Sample.base Sample.provider_ok
          Edge.second_item_untitled) = [].
Proof.
  assert (H1 : get_prop Edge.second_item_untitled (js "items")
               = Normal (VArray ([Sample.shirt] ++ Sample.untitled :: [VNull])))
    by (vm_compute; reflexivity).
  assert (H2 : Forall (fun item => valid_item item = true) [Sample.shirt])
    by (constructor; [vm_compute; reflexivity|constructor]).
  assert (H4 : valid_item Sample.untitled = false)
    by (vm_compute; reflexivity).
  split; [exact H1|]. split; [exact H2|]. split; [reflexivity|].
  split; [exact H4|].
  exact (first_invalid_item_rejected V8.Number_toString_finite Sample.base
           Sample.provider_ok Edge.second_item_untitled [Sample.shirt] [VNull]
           Sample.untitled H1 H2 eq_refl H4).
Defined.

(** ** The forwarded price *)

Lemma below_half_cent_not_huge (m : positive) (e : Z) :
  (200 * Npos m * 2 ^ Z.to_N e < 2 ^ Z.to_N (- e))%N ->
  at_least_1e21 m e = false /\ nearest_scaled m e 2 = 0%N.
Proof.
  intros Hsmall. unfold at_least_1e21, nearest_scaled.
  change (10 ^ N.of_nat 2)%N with 100%N.
  change (10 ^ 21)%N with 1000000000000000000000%N.
  set (A := (2 ^ Z.to_N e)%N) in *. set (B := (2 ^ Z.to_N (- e))%N) in *.
  split.
  - apply N.leb_gt. nia.
  - apply N.div_small. nia.
Qed.

(** X4: a valid item whose price is below half a cent is forwarded with a
    [unit_price] of zero, although validation demanded a price above
    zero. *)
Theorem tiny_price_forwarded_as_zero toString_finite (item : value)
    (m : positive) (e : Z) :
  valid_item item = true ->
  price_of item = S754_finite false m e ->
  (200 * Npos m * 2 ^ Z.to_N e < 2 ^ Z.to_N (- e))%N ->
  preference_item toString_finite item
  = Normal (VObject [(js "title", field item "title");
                     (js "quantity", field item "quantity");
                     (js "unit_price", VNumber (S754_zero false))])
  /\ positive_number (VNumber (S754_zero false)) = false.
Proof.
  intros Hv Hprice Hsmall. split; [|reflexivity].
  destruct (below_half_cent_not_huge m e Hsmall) as [Hbig Hn].
  rewrite (preference_item_valid toString_finite item Hv).
  unfold sent_item. rewrite Hprice. unfold Number_toFixed.
  rewrite Hbig, Hn. reflexivity.
Qed.

Lemma tiny_price_forwarded_as_zero_witness :
  valid_item Edge.speck = true
  /\ price_of Edge.speck = S754_finite false 4611686018427388 (-62)
  /\ (200 * 4611686018427388 * 2 ^ Z.to_N (-62) < 2 ^ Z.to_N (- -62))%N
  /\ preference_item V8.Number_toString_finite Edge.speck
     = Normal (VObject [(js "title", field Edge.speck "title");
                        (js "quantity", field Edge.speck "quantity");
                        (js "unit_price", VNumber (S754_zero false))])
  /\ positive_number (VNumber (S754_zero false)) = false.
Proof.
  assert (H1 : valid_item Edge.speck = true) by (vm_compute; reflexivity).
  assert (H2 : price_of Edge.speck = S754_finite false 4611686018427388 (-62))
    by (vm_compute; reflexivity).
  assert (H3 : (200 * 4611686018427388 * 2 ^ Z.to_N (-62)
                < 2 ^ Z.to_N (- -62))%N) by (vm_compute; reflexivity).
  split; [exact H1|]. split; [exact H2|]. split; [exact H3|].
  exact (tiny_price_forwarded_as_zero V8.Number_toString_finite Edge.speck
           4611686018427388 (-62) H1 H2 H3).
Defined.

(** X5: a valid item with a finite price [x] below [10^21] is forwarded
    with the Number value for [n / 100] as [unit_price], where [n] is the
    integer with [n <= 100 x + 1/2 < n + 1]: the price is moved by at most
    half a cent before it is turned into a Number again, and a price halfway
    between two cents goes up. *)
Theorem forwarded_price_nearest_cent toString_finite (item : value)
    (m : positive) (e : Z) :
  valid_item item = true ->
  price_of item = S754_finite false m e ->
  at_least_1e21 m e = false ->
  exists n,
    preference_item toString_finite item
    = Normal (VObject [(js "title", field item "title");
                       (js "quantity", field item "quantity");
                       (js "unit_price",
                        VNumber (number_of_ratio false n 100))])
    /\ (2 * 2 ^ Z.to_N (- e) * n
        <= 2 * (Npos m * 100 * 2 ^ Z.to_N e) + 2 ^ Z.to_N (- e)
        < 2 * 2 ^ Z.to_N (- e) * (n + 1))%N.
Proof.
  intros Hv Hprice Hbig. exists (nearest_scaled m e 2). split.
  - rewrite (preference_item_valid toString_finite item Hv).
    unfold sent_item. rewrite Hprice. unfold Number_toFixed. rewrite Hbig.
    cbn [app]. rewrite parseFloat_fixed_notation. reflexivity.
  - exact (nearest_scaled_nearest m e 2).
Qed.

Lemma forwarded_price_nearest_cent_witness :
  valid_item Edge.trinket = true
  /\ price_of Edge.trinket = S754_finite false 4526117625507348 (-52)
  /\ at_least_1e21 4526117625507348 (-52) = false
  /\ exists n,
       preference_item V8.Number_toString_finite Edge.trinket
       = Normal (VObject [(js "title", field Edge.trinket "title");
                          (js "quantity", field Edge.trinket "quantity");
                          (js "unit_price",
                           VNumber (number_of_ratio false n 100))])
       /\ (2 * 2 ^ Z.to_N (- -52) * n
           <= 2 * (4526117625507348 * 100 * 2 ^ Z.to_N (-52))
              + 2 ^ Z.to_N (- -52)
           < 2 * 2 ^ Z.to_N (- -52) * (n + 1))%N.
Proof.
  assert (H1 : valid_item Edge.trinket = true) by (vm_compute; reflexivity).
  assert (H2 : price_of Edge.trinket
               = S754_finite false 4526117625507348 (-52))
    by (vm_compute; reflexivity).
  assert (H3 : at_least_1e21 4526117625507348 (-52) = false)
    by (vm_compute; reflexivity).
  split; [exact H1|]. split; [exact H2|]. split; [exact H3|].
  exact (forwarded_price_nearest_cent V8.Number_toString_finite Edge.trinket
           4526117625507348 (-52) H1 H2 H3).
Defined.

(** 1.005 is, as a Number, just below 1.005, and goes down to 1. *)
Example trinket_sent_as_1 :
  preference_item V8.Number_toString_finite Edge.trinket
  = Normal (VObject [(js "title", Sample.str "Trinket");
                     (js "quantity", Sample.num "3");
                     (js "unit_price", Sample.num "1")]).
Proof. vm_compute. reflexivity. Qed.

(** X6: validation puts no upper bound on the price.  An item whose
    [unit_price] is [Infinity], which is what [JSON.parse] makes of [1e999],
    passes the loop's test and is forwarded with [Infinity] as its price. *)
Theorem infinite_price_forwarded toString_finite (item : value) :
  valid_title (field item "title") = true ->
  positive_number (field item "quantity") = true ->
  field item "unit_price" = VNumber Infinity ->
  invalid_item item = Normal false
  /\ preference_item toString_finite item
     = Normal (VObject [(js "title", field item "title");
                        (js "quantity", field item "quantity");
                        (js "unit_price", VNumber Infinity)]).
Proof.
  intros Ht Hq Hp.
  assert (Hv : valid_item item = true).
  { destruct item as [| |b|x|s|l|ps]; try discriminate Hp.
    cbn [valid_item field] in *. now rewrite Ht, Hq, Hp. }
  split.
  - rewrite (invalid_item_not_nullish item (valid_item_not_nullish item Hv)).
    now rewrite Hv.
  - rewrite (preference_item_valid toString_finite item Hv).
    unfold sent_item.
    assert (Hprice : price_of item = Infinity).
    { destruct item as [| |b|x|s|l|ps]; try discriminate Hp.
      cbn [price_of field] in *. now rewrite Hp. }
    rewrite Hprice. reflexivity.
Qed.

Lemma infinite_price_forwarded_witness :
  valid_title (field Edge.priceless "title") = true
  /\ positive_number (field Edge.priceless "quantity") = true
  /\ field Edge.priceless "unit_price" = VNumber Infinity
  /\ invalid_item Edge.priceless = Normal false
  /\ preference_item V8.Number_toString_finite Edge.priceless
     = Normal (VObject [(js "title", field Edge.priceless "title");
                        (js "quantity", field Edge.priceless "quantity");
                        (js "unit_price", VNumber Infinity)]).
Proof.
  assert (H1 : valid_title (field Edge.priceless "title") = true)
    by (vm_compute; reflexivity).
  assert (H2 : positive_number (field Edge.priceless "quantity") = true)
    by (vm_compute; reflexivity).
  assert (H3 : field Edge.priceless "unit_price" = VNumber Infinity)
    by (vm_compute; reflexivity).
  split; [exact H1|]. split; [exact H2|]. split; [exact H3|].
  exact (infinite_price_forwarded V8.Number_toString_finite Edge.priceless
           H1 H2 H3).
Defined.

(** ** What the provider returns *)

(** X7: on a valid cart, a provider that returns [null] or [undefined] is
    answered with 500 and the text of the [TypeError] raised by reading
    [response.init_point], although the provider was called; a provider that
    returns a value without [init_point] is answered with 200 and a body
    that [res.json] sends as an empty object. *)
Theorem provider_result_without_init_point toString_finite BASE_URL provider
    (req_body : value) (items : list value) (result : value) :
  valid_cart req_body items ->
  provider_returns provider
    (handler toString_finite BASE_URL provider req_body) result ->
  provider_calls (handler toString_finite BASE_URL provider req_body)
  = [sent_request toString_finite BASE_URL items]
  /\ (nullish result = true ->
      responds (handler toString_finite BASE_URL provider req_body) 500
        (error_body
           (VString (js "Cannot read properties of " ++ nullish_name result
                     ++ js " (reading 'init_point')")) []))
  /\ (nullish result = false -> lacks result "init_point" ->
      responds (handler toString_finite BASE_URL provider req_body) 200
        (object1 "init_point" VUndefined)
      /\ JSON_stringify_text toString_finite (object1 "init_point" VUndefined)
         = js "{}").
Proof.
  intros Hc Hret.
  pose proof (provider_calls_valid_cart toString_finite BASE_URL provider
                _ _ Hc) as Hcalls.
  split; [exact Hcalls|].
  unfold provider_returns in Hret. rewrite Hcalls in Hret.
  specialize (Hret _ (or_introl eq_refl)).
  unfold responds, handler. rewrite (try_block_valid_cart _ _ _ _ _ Hc).
  cbn [reply]. rewrite Hret. cbn [bind]. split.
  - intros Hn. destruct result; try discriminate Hn; vm_compute; reflexivity.
  - intros Hn Hlacks. unfold lacks in Hlacks. rewrite Hlacks. cbn [bind].
    split; [reflexivity|]. vm_compute. reflexivity.
Qed.

Lemma provider_result_without_init_point_witness :
  valid_cart Sample.cart_body Sample.cart
  /\ provider_returns (fun _ => Normal VNull)
       (handler V8.Number_toString_finite Sample.base (fun _ => Normal VNull)
          Sample.cart_body) VNull
  /\ nullish VNull = true
  /\ responds
       (handler V8.Number_toString_finite Sample.base (fun _ => Normal VNull)
          Sample.cart_body)
       500
       (error_body
          (VString (js "Cannot read properties of " ++ nullish_name VNull
                    ++ js " (reading 'init_point')")) []).
Proof.
  assert (H2 : provider_returns (fun _ => Normal VNull)
                 (handler V8.Number_toString_finite Sample.base
                    (fun _ => Normal VNull) Sample.cart_body) VNull).
  { intros request _. reflexivity. }
  split; [exact sample_cart_valid|]. split; [exact H2|].
  split; [reflexivity|].
  exact (proj1 (proj2
           (provider_result_without_init_point V8.Number_toString_finite
              Sample.base (fun _ => Normal VNull) Sample.cart_body
              Sample.cart VNull sample_cart_valid H2)) eq_refl).
Defined.

(** ** Start-up and the base URL *)




Lemma remove_trailing_slash_unchanged (s : jsstring) :
  List.last s 0%N <> solidus -> remove_trailing_slash s = s.
Proof.
  induction s as [|x s0 _] using rev_ind; [reflexivity|].
  rewrite last_last. apply remove_trailing_slash_other.
Qed.

(** X9: the slash [part_000] removes is the last code unit of the
    configured base URL, and the only thing it removes: [BASE_URL] is the
    configured URL itself when that does not end with a slash, and the
    configured URL without its last slash otherwise. *)
Theorem Part000_removes_one_slash (env : environment) :
  (List.last (configured_base_url env) 0%N <> solidus
   /\ Part000.BASE_URL env = configured_base_url env)
  \/ configured_base_url env = Part000.BASE_URL env ++ [solidus].
Proof.
  unfold Part000.BASE_URL.
  destruct (configured_base_url env) as [|x s0 _] using rev_ind.
  - left. split; [discriminate|reflexivity].
  - destruct (N.eq_dec x solidus) as [->|Hx].
    + right. now rewrite remove_trailing_slash_slash.
    + left. rewrite last_last. split; [exact Hx|].
      now apply remove_trailing_slash_other.
Qed.

(** X10: when the configured base URL does not end with a slash, the two
    scripts are the same program: same [BASE_URL], same start-up, same
    outcome for every request. *)
Theorem scripts_agree_without_trailing_slash (env : environment) :
  List.last (configured_base_url env) 0%N <> solidus ->
  Index.BASE_URL env = Part000.BASE_URL env
  /\ Index.startup env = Part000.startup env
  /\ forall toString_finite provider req_body,
       Index.handler toString_finite env provider req_body
       = Part000.handler toString_finite env provider req_body.
Proof.
  intros Hlast.
  assert (E : Index.BASE_URL env = Part000.BASE_URL env).
  { unfold Index.BASE_URL, Part000.BASE_URL.
    now rewrite (remove_trailing_slash_unchanged _ Hlast). }
  split; [exact E|]. split.
  - unfold Index.startup, Part000.startup. now rewrite E.
  - intros. unfold Index.handler, Part000.handler. now rewrite E.
Qed.

Lemma scripts_agree_without_trailing_slash_witness :
  List.last (configured_base_url Sample.env_without_token) 0%N <> solidus
  /\ Index.BASE_URL Sample.env_without_token
     = Part000.BASE_URL Sample.env_without_token
  /\ Index.startup Sample.env_without_token
     = Part000.startup Sample.env_without_token
  /\ forall toString_finite provider req_body,
       Index.handler toString_finite Sample.env_without_token provider req_body
       = Part000.handler toString_finite Sample.env_without_token provider
           req_body.
Proof.
  assert (H : List.last (configured_base_url Sample.env_without_token) 0%N
              <> solidus) by (vm_compute; discriminate).
  split; [exact H|].
  exact (scripts_agree_without_trailing_slash Sample.env_without_token H).
Defined.

(** X11: when [NEXT_PUBLIC_BASE_URL] is unset or empty, both scripts fall
    back to [http://localhost:3000], and the provider is given the three
    redirect URLs under it. *)
Theorem default_base_url (env : environment) :
  env (js "NEXT_PUBLIC_BASE_URL") = None
  \/ env (js "NEXT_PUBLIC_BASE_URL") = Some [] ->
  Index.BASE_URL env = js "http://localhost:3000"
  /\ Part000.BASE_URL env = js "http://localhost:3000"
  /\ back_urls (Part000.BASE_URL env)
     = VObject
         [(js "success", VString (js "http://localhost:3000/success"));
          (js "failure", VString (js "http://localhost:3000/failure"));
          (js "pending", VString (js "http://localhost:3000/pending"))].
Proof.
  intros Hunset.
  assert (E : configured_base_url env = js "http://localhost:3000").
  { unfold configured_base_url. destruct Hunset as [-> | ->]; reflexivity. }
  unfold Index.BASE_URL, Part000.BASE_URL. rewrite E.
  split; [reflexivity|]. split; vm_compute; reflexivity.
Qed.

Lemma default_base_url_witness :
  (Edge.env_token_only (js "NEXT_PUBLIC_BASE_URL") = None
   \/ Edge.env_token_only (js "NEXT_PUBLIC_BASE_URL") = Some [])
  /\ Index.BASE_URL Edge.env_token_only = js "http://localhost:3000"
  /\ Part000.BASE_URL Edge.env_token_only = js "http://localhost:3000"
  /\ back_urls (Part000.BASE_URL Edge.env_token_only)
     = VObject
         [(js "success", VString (js "http://localhost:3000/success"));
          (js "failure", VString (js "http://localhost:3000/failure"));
          (js "pending", VString (js "http://localhost:3000/pending"))].
Proof.
  assert (H : Edge.env_token_only (js "NEXT_PUBLIC_BASE_URL") = None
              \/ Edge.env_token_only (js "NEXT_PUBLIC_BASE_URL") = Some [])
    by (left; vm_compute; reflexivity).
  split; [exact H|].
  exact (default_base_url Edge.env_token_only H).
Defined.

(** ** The details of a 500 answer *)

(** A witness for [catch_block_object]: the zero status is left out, the
    cause and the response data are copied, and the inner message wins. *)
Lemma catch_block_object_witness :
  is_object Edge.layered_error = true
  /\ catch_block Edge.layered_error
     = Normal
         (json 500
            (error_body (Sample.str "inner")
               [(js "cause", VArray [Sample.str "x"]);
                (js "apiResponse",
                 VObject [(js "message", Sample.str "inner")])])).
Proof.
  split; [reflexivity|].
  exact (catch_block_object Edge.layered_error eq_refl).
Defined.

(** ** The loop's test *)

(** X14: what the loop tests on one element of [items].  On [null] and
    [undefined] the test throws the [TypeError] of reading [title]; on
    anything else it holds exactly when the element is not a valid item:
    not an object with a title that is a string with something left after
    trimming, a quantity that is a number above zero and a unit price that
    is a number above zero. *)
Theorem loop_test_characterised (item : value) :
  (nullish item = true
   /\ invalid_item item = Throw (cannot_read item (js "title")))
  \/ (nullish item = false
      /\ invalid_item item = Normal (negb (valid_item item))).
Proof.
  destruct (nullish item) eqn:Hn.
  - left. split; [reflexivity|]. now apply invalid_item_nullish.
  - right. split; [reflexivity|]. now apply invalid_item_not_nullish.
Qed.

Lemma trimStart_head (s : jsstring) (c : code_unit) (r : jsstring) :
  trimStart s = c :: r -> is_white_space c = false.
Proof.
  induction s as [|x s IH]; [discriminate|].
  cbn [trimStart]. destruct (is_white_space x) eqn:Hx; [exact IH|].
  intros H. injection H as <- _. exact Hx.
Qed.

Lemma trimStart_nil_iff (s : jsstring) :
  trimStart s = [] <-> Forall (fun c => is_white_space c = true) s.
Proof.
  induction s as [|x s IH]; [split; [constructor|reflexivity]|].
  cbn [trimStart]. destruct (is_white_space x) eqn:Hx; split.
  - intros H. constructor; [exact Hx|]. now apply IH.
  - intros H. apply IH. now inversion H.
  - discriminate.
  - intros H. inversion H. congruence.
Qed.

(** [s.trim()] is empty exactly when [s] is made of white space only. *)
Lemma trim_nil_iff (s : jsstring) :
  trim s = [] <-> Forall (fun c => is_white_space c = true) s.
Proof.
  unfold trim, trimEnd. split.
  - intros H. apply (f_equal (@rev _)) in H. rewrite rev_involutive in H.
    cbn [rev] in H. apply trimStart_nil_iff in H.
    apply Forall_rev in H. rewrite rev_involutive in H.
    destruct (trimStart s) as [|c r] eqn:E.
    + now apply trimStart_nil_iff.
    + apply trimStart_head in E. inversion H. congruence.
  - intros H. apply trimStart_nil_iff in H. rewrite H. reflexivity.
Qed.

Lemma visible_or_blank (s : jsstring) :
  (exists c, In c s /\ is_white_space c = false)
  \/ Forall (fun c => is_white_space c = true) s.
Proof.
  induction s as [|x s [(c & Hin & Hc)|IH]].
  - right. constructor.
  - left. exists c. split; [now right|exact Hc].
  - destruct (is_white_space x) eqn:Hx.
    + right. now constructor.
    + left. exists x. split; [now left|exact Hx].
Qed.

(** X15: with a quantity and a unit price that pass, an item passes the
    loop's test exactly when its title, a string, has at least one character
    that is not white space: a title of spaces, tabs, line breaks or
    no-break spaces is rejected like an empty one. *)
Theorem title_needs_visible_character (props : list (jsstring * value))
    (s : jsstring) :
  lookup (js "title") props = VString s ->
  positive_number (lookup (js "quantity") props) = true ->
  positive_number (lookup (js "unit_price") props) = true ->
  invalid_item (VObject props) = Normal false
  <-> exists c, In c s /\ is_white_space c = false.
Proof.
  intros Ht Hq Hp.
  rewrite (invalid_item_not_nullish (VObject props) eq_refl).
  cbn [valid_item]. rewrite Ht, Hq, Hp. cbn [valid_title].
  rewrite !andb_true_r, negb_involutive.
  destruct (jsstring_eqb (trim s) []) eqn:E; split.
  - discriminate.
  - intros (c & Hin & Hc). apply jsstring_eqb_spec, trim_nil_iff in E.
    rewrite Forall_forall in E. specialize (E c Hin). congruence.
  - intros _. destruct (visible_or_blank s) as [H|H]; [exact H|].
    apply trim_nil_iff, jsstring_eqb_spec in H. congruence.
  - reflexivity.
Qed.

Lemma title_needs_visible_character_witness :
  lookup (js "title")
    [(js "title", VString [32; 160; 9]%N); (js "quantity", Sample.num "1");
     (js "unit_price", Sample.num "5")]
  = VString [32; 160; 9]%N
  /\ positive_number
       (lookup (js "quantity")
          [(js "title", VString [32; 160; 9]%N);
           (js "quantity", Sample.num "1"); (js "unit_price", Sample.num "5")])
     = true
  /\ positive_number
       (lookup (js "unit_price")
          [(js "title", VString [32; 160; 9]%N);
           (js "quantity", Sample.num "1"); (js "unit_price", Sample.num "5")])
     = true
  /\ (invalid_item
        (VObject
           [(js "title", VString [32; 160; 9]%N);
            (js "quantity", Sample.num "1");
            (js "unit_price", Sample.num "5")])
      = Normal false
      <-> exists c, In c [32; 160; 9]%N /\ is_white_space c = false).
Proof.
  split; [vm_compute; reflexivity|]. split; [vm_compute; reflexivity|].
  split; [vm_compute; reflexivity|].
  apply (title_needs_visible_character
           [(js "title", VString [32; 160; 9]%N);
            (js "quantity", Sample.num "1"); (js "unit_price", Sample.num "5")]
           [32; 160; 9]%N); vm_compute; reflexivity.
Defined.

(** A title of a space, a no-break space and a tab is rejected. *)
Example blank_title_rejected :
  invalid_item
    (VObject [(js "title", VString [32; 160; 9]%N);
              (js "quantity", Sample.num "1");
              (js "unit_price", Sample.num "5")])
  = Normal true.
Proof. vm_compute. reflexivity. Qed.
